(** * ai_db_orm: the sharded entity repository layer

    A shallow embedding of [src/ai_db_orm/models.py], [enums.py] and
    [repos.py].  Every repository owns the tables of one shard; a table is
    the list of its rows in storage order.  The relational engine is the
    external capability the repositories talk to through SQLAlchemy
    sessions; it is modelled by the few statements the repositories issue:

    - [select(T).where(P)]       the rows of the table that satisfy [P],
                                 in storage order;
    - [.first()] / [.all()]      the head of that list / the whole list,
                                 once the session has loaded every fetched
                                 row into an object;
    - [.order_by(c.desc())]      the rows sorted by decreasing [c];
    - [.limit(n)]                the first [n] rows;
    - [session.add] + [commit]   of a new object: an INSERT, refused with
                                 an [IntegrityError] when the primary key
                                 is taken; of a loaded object: an UPDATE of
                                 the rows carrying its primary key.

    A read sees every write committed before it, on every shard.  The two
    sources of nondeterminism of the code, [datetime.now()] and
    [uuid.uuid4()], are oracles carried by the world: arbitrary functions
    of the number of readings taken so far. *)

From Stdlib Require Import ZArith Lia.
From stdpp Require Import base decidable numbers list strings sorting.

Open Scope string_scope.
Open Scope list_scope.
Open Scope Z_scope.

(** ** Identities and timestamps *)

(** [uuid.UUID] is a 128-bit value and a [datetime] a point in time; the
    repositories only compare, copy and print them. *)
Abbreviation UUID := Z (only parsing).
Abbreviation datetime := Z (only parsing).

Definition hex_digit (d : Z) : string :=
  match d with
  | 0 => "0" | 1 => "1" | 2 => "2" | 3 => "3" | 4 => "4" | 5 => "5"
  | 6 => "6" | 7 => "7" | 8 => "8" | 9 => "9" | 10 => "a" | 11 => "b"
  | 12 => "c" | 13 => "d" | 14 => "e" | _ => "f"
  end.

(** The [n] hexadecimal digits of [z] from digit [n - 1] down to digit 0. *)
Fixpoint hex_digits (n : nat) (z : Z) : string :=
  match n with
  | O => ""
  | S k => hex_digit (Z.land (Z.shiftr z (4 * Z.of_nat k)) 15) +:+ hex_digits k z
  end.

(** [str(u)]: the canonical 36-character form 8-4-4-4-12, which is also
    what the [UUIDString] column type binds ([process_bind_param]). *)
Definition str_uuid (u : UUID) : string :=
  hex_digits 8 (Z.shiftr u 96) +:+ "-" +:+ hex_digits 4 (Z.shiftr u 80) +:+ "-"
  +:+ hex_digits 4 (Z.shiftr u 64) +:+ "-" +:+ hex_digits 4 (Z.shiftr u 48) +:+ "-"
  +:+ hex_digits 12 u.

(** ** enums.py *)

Inductive ResourceType := file | meeting | website.

Inductive ResourceStatus := pending | failed | available.

(** Both enumerations are [StrEnum]s: a member is the string it names. *)
Definition ResourceType_value (t : ResourceType) : string :=
  match t with file => "file" | meeting => "meeting" | website => "website" end.

Definition ResourceStatus_value (s : ResourceStatus) : string :=
  match s with pending => "pending" | failed => "failed" | available => "available" end.

(** The payload of [ChatMessage.arguments], a JSON column: a mapping from
    string keys to JSON values, kept in the order of its keys. *)
Inductive json :=
  | JNull
  | JBool (b : bool)
  | JNum (z : Z)
  | JStr (s : string)
  | JObj (members : dict)
with dict :=
  | dict_empty
  | dict_item (key : string) (value : json) (rest : dict).

(** ** models.py

    One module per table class, so that a column reads as in the source
    ([User.user_id], [Resource.status]).  Each record lists the columns of
    [BaseTable] ([updated_at], [created_at]), then of
    [BaseOrganizationTable] ([organization_id]), then its own. *)

Module User.
Record t := mk {
  updated_at : option datetime;
  created_at : datetime;
  user_id : UUID;
  first_name : string;
  last_name : string;
  phone : string;
  email : string;
  password : string }.
End User.

Module Organization.
Record t := mk {
  updated_at : option datetime;
  created_at : datetime;
  organization_id : UUID;
  name : string;
  timezone : string;
  status : string }.
End Organization.

Module OrganizationUser.
Record t := mk {
  updated_at : option datetime;
  created_at : datetime;
  organization_id : UUID;
  user_id : UUID;
  status : string }.
End OrganizationUser.

Module CollectionResource.
Record t := mk {
  updated_at : option datetime;
  created_at : datetime;
  organization_id : UUID;
  collection_id : UUID;
  resource_id : UUID }.
End CollectionResource.

Module Resource.
(** [status] is declared [ResourceStatus]; a table class is not validated
    on assignment and [update_resource_status] stores the [str] it is
    given, so the column holds a string. *)
Record t := mk {
  updated_at : option datetime;
  created_at : datetime;
  organization_id : UUID;
  resource_id : UUID;
  source_entity_type : ResourceType;
  source_entity_id : UUID;
  status : string;
  name : string;
  ai_summary : option string }.

Definition with_status (s : string) (r : t) : t :=
  mk (updated_at r) (created_at r) (organization_id r) (resource_id r)
     (source_entity_type r) (source_entity_id r) s (name r) (ai_summary r).
End Resource.

Module File.
Record t := mk {
  updated_at : option datetime;
  created_at : datetime;
  organization_id : UUID;
  file_id : UUID;
  resource_id : UUID;
  name : string;
  path : string;
  mime_type : string;
  user_id : UUID;
  deleted : option bool }.
End File.

Module Meeting.
Record t := mk {
  updated_at : option datetime;
  created_at : datetime;
  organization_id : UUID;
  meeting_id : UUID;
  resource_id : UUID;
  provider_meeting_id : option string;
  provider_meeting_password : option string;
  provider_meeting_url : option string;
  provider : string;
  status : string;
  status_updated_at : datetime;
  transcriptions : option string;
  user_id : UUID }.
End Meeting.

Module Website.
Record t := mk {
  updated_at : option datetime;
  created_at : datetime;
  organization_id : UUID;
  website_id : UUID;
  resource_id : UUID;
  name : string;
  url : string;
  parsed_urls : option string;
  user_id : option UUID }.
End Website.

Module Chat.
Record t := mk {
  updated_at : option datetime;
  created_at : datetime;
  organization_id : UUID;
  chat_id : UUID;
  owner_user_id : UUID;
  type : string;
  summary : option string;
  name : string }.
End Chat.

Module ChatMessage.
Record t := mk {
  updated_at : option datetime;
  created_at : datetime;
  organization_id : UUID;
  chat_id : UUID;
  message_id : UUID;
  user_id : option UUID;
  type : string;
  content : string;
  arguments : dict;
  is_summarized : bool }.
End ChatMessage.

(** ** The world: the shards and the two oracles

    [users] is the users shard, [organizations] and [organization_users]
    the organizations shard, [collection_resources] belongs to the
    collections shard, [resources], [files], [meetings] and [websites] are
    one shard each, [chats] and [chat_messages] the chat shard. *)

Record World := mkWorld {
  users : list User.t;
  organizations : list Organization.t;
  organization_users : list OrganizationUser.t;
  collection_resources : list CollectionResource.t;
  resources : list Resource.t;
  files : list File.t;
  meetings : list Meeting.t;
  websites : list Website.t;
  chats : list Chat.t;
  chat_messages : list ChatMessage.t;
  clock : nat → datetime;
  ticks : nat;
  entropy : nat → UUID;
  draws : nat }.

(** ** Exceptions and the repository monad *)

(** The exceptions the modelled code can raise: the attribute access on
    [None], the index into an empty list, the engine's refusal of an INSERT,
    the session's refusal to refresh an object it finds no row for, and
    the refusal of the [Enum] column type to load a value that names no
    member. *)
Inductive exn :=
  | AttributeError
  | IndexError
  | IntegrityError
  | InvalidRequestError
  | LookupError.

(** The name of the exception class, as a caller's [except] clause sees it. *)
Definition exn_name (e : exn) : string :=
  match e with
  | AttributeError => "AttributeError"
  | IndexError => "IndexError"
  | IntegrityError => "IntegrityError"
  | InvalidRequestError => "InvalidRequestError"
  | LookupError => "LookupError"
  end.

Inductive result (A : Type) :=
  | Ok (a : A)
  | Raise (e : exn).
Arguments Ok {A} a.
Arguments Raise {A} e.

(** A repository call runs in a world and leaves a world behind, whether
    it returns or raises. *)
Definition Repo (A : Type) : Type := World → result A * World.

#[export] Instance Repo_ret : MRet Repo := λ A a w, (Ok a, w).

#[export] Instance Repo_bind : MBind Repo := λ A B k m w,
  match m w with
  | (Ok a, w') => k a w'
  | (Raise e, w') => (Raise e, w')
  end.

Definition raise {A} (e : exn) : Repo A := λ w, (Raise e, w).

(** A statement executed in a session that only reads. *)
Definition query {A} (q : World → A) : Repo A := λ w, (Ok (q w), w).

(** [datetime.now()] *)
Definition datetime_now : Repo datetime := λ w,
  (Ok (clock w (ticks w)),
   mkWorld (users w) (organizations w) (organization_users w)
     (collection_resources w) (resources w) (files w) (meetings w)
     (websites w) (chats w) (chat_messages w)
     (clock w) (S (ticks w)) (entropy w) (draws w)).

(** [uuid.uuid4()] *)
Definition uuid4 : Repo UUID := λ w,
  (Ok (entropy w (draws w)),
   mkWorld (users w) (organizations w) (organization_users w)
     (collection_resources w) (resources w) (files w) (meetings w)
     (websites w) (chats w) (chat_messages w)
     (clock w) (ticks w) (entropy w) (S (draws w))).

(** ** Tables

    What the engine needs to know of a mapped class: the table that holds
    its rows and the columns declared [primary_key=True].  Every class but
    [User] inherits [organization_id] as a primary-key column from
    [BaseOrganizationTable], so its key is composite. *)

Class Table (T : Type) := {
  primary_key : T → list UUID;
  rows : World → list T;
  set_rows : list T → World → World;
  rows_set_rows : ∀ l w, rows (set_rows l w) = l }.

#[export] Instance User_table : Table User.t := {
  primary_key u := [User.user_id u];
  rows := users;
  set_rows l w :=
    mkWorld l (organizations w) (organization_users w)
      (collection_resources w) (resources w) (files w) (meetings w)
      (websites w) (chats w) (chat_messages w)
      (clock w) (ticks w) (entropy w) (draws w);
  rows_set_rows _ _ := eq_refl }.

#[export] Instance Organization_table : Table Organization.t := {
  primary_key o := [Organization.organization_id o];
  rows := organizations;
  set_rows l w :=
    mkWorld (users w) l (organization_users w)
      (collection_resources w) (resources w) (files w) (meetings w)
      (websites w) (chats w) (chat_messages w)
      (clock w) (ticks w) (entropy w) (draws w);
  rows_set_rows _ _ := eq_refl }.

#[export] Instance OrganizationUser_table : Table OrganizationUser.t := {
  primary_key m := [OrganizationUser.organization_id m; OrganizationUser.user_id m];
  rows := organization_users;
  set_rows l w :=
    mkWorld (users w) (organizations w) l
      (collection_resources w) (resources w) (files w) (meetings w)
      (websites w) (chats w) (chat_messages w)
      (clock w) (ticks w) (entropy w) (draws w);
  rows_set_rows _ _ := eq_refl }.

#[export] Instance CollectionResource_table : Table CollectionResource.t := {
  primary_key c :=
    [CollectionResource.organization_id c; CollectionResource.collection_id c;
     CollectionResource.resource_id c];
  rows := collection_resources;
  set_rows l w :=
    mkWorld (users w) (organizations w) (organization_users w)
      l (resources w) (files w) (meetings w)
      (websites w) (chats w) (chat_messages w)
      (clock w) (ticks w) (entropy w) (draws w);
  rows_set_rows _ _ := eq_refl }.

#[export] Instance Resource_table : Table Resource.t := {
  primary_key r := [Resource.organization_id r; Resource.resource_id r];
  rows := resources;
  set_rows l w :=
    mkWorld (users w) (organizations w) (organization_users w)
      (collection_resources w) l (files w) (meetings w)
      (websites w) (chats w) (chat_messages w)
      (clock w) (ticks w) (entropy w) (draws w);
  rows_set_rows _ _ := eq_refl }.

#[export] Instance File_table : Table File.t := {
  primary_key f := [File.organization_id f; File.file_id f];
  rows := files;
  set_rows l w :=
    mkWorld (users w) (organizations w) (organization_users w)
      (collection_resources w) (resources w) l (meetings w)
      (websites w) (chats w) (chat_messages w)
      (clock w) (ticks w) (entropy w) (draws w);
  rows_set_rows _ _ := eq_refl }.

#[export] Instance Meeting_table : Table Meeting.t := {
  primary_key m := [Meeting.organization_id m; Meeting.meeting_id m];
  rows := meetings;
  set_rows l w :=
    mkWorld (users w) (organizations w) (organization_users w)
      (collection_resources w) (resources w) (files w) l
      (websites w) (chats w) (chat_messages w)
      (clock w) (ticks w) (entropy w) (draws w);
  rows_set_rows _ _ := eq_refl }.

#[export] Instance Website_table : Table Website.t := {
  primary_key s := [Website.organization_id s; Website.website_id s];
  rows := websites;
  set_rows l w :=
    mkWorld (users w) (organizations w) (organization_users w)
      (collection_resources w) (resources w) (files w) (meetings w)
      l (chats w) (chat_messages w)
      (clock w) (ticks w) (entropy w) (draws w);
  rows_set_rows _ _ := eq_refl }.

#[export] Instance Chat_table : Table Chat.t := {
  primary_key c := [Chat.organization_id c; Chat.chat_id c];
  rows := chats;
  set_rows l w :=
    mkWorld (users w) (organizations w) (organization_users w)
      (collection_resources w) (resources w) (files w) (meetings w)
      (websites w) l (chat_messages w)
      (clock w) (ticks w) (entropy w) (draws w);
  rows_set_rows _ _ := eq_refl }.

#[export] Instance ChatMessage_table : Table ChatMessage.t := {
  primary_key m :=
    [ChatMessage.organization_id m; ChatMessage.chat_id m; ChatMessage.message_id m];
  rows := chat_messages;
  set_rows l w :=
    mkWorld (users w) (organizations w) (organization_users w)
      (collection_resources w) (resources w) (files w) (meetings w)
      (websites w) (chats w) l
      (clock w) (ticks w) (entropy w) (draws w);
  rows_set_rows _ _ := eq_refl }.

(** ** BaseRepo *)

(** [BaseRepo._commit_object]: a fresh session, [session.add(obj)],
    [session.commit()], [session.refresh(obj)], return [obj].  The object
    is new, so the commit is an INSERT: the engine refuses it when a row
    with the same primary key is stored, the session is closed without
    having written and the exception reaches the caller as it is.
    Otherwise the row is stored, and [refresh] selects it back by primary
    key and loads its columns into [obj].  ([CollectionRepo] overrides the
    method with the same body.) *)
Definition _commit_object `{Table T} (obj : T) : Repo T := λ w,
  if decide (primary_key obj ∈ (primary_key <$> rows w))
  then (Raise IntegrityError, w)
  else
    let w' := set_rows (rows w ++ [obj]) w in
    match head (filter (λ r, primary_key r = primary_key obj) (rows w')) with
    | Some stored => (Ok stored, w')
    | None => (Raise InvalidRequestError, w')
    end.

(** [session.add(obj); session.commit()] for an object the session has
    loaded and the code has modified: the UPDATE of the row with the
    object's primary key. *)
Definition session_commit_loaded `{Table T} (obj : T) : Repo () := λ w,
  (Ok (),
   set_rows ((λ r, if decide (primary_key r = primary_key obj) then obj else r)
               <$> rows w) w).

(** ** UserRepo *)

(** [User(first_name=..., last_name=...)]: the default factories read the
    clock and draw the identity, the other columns take their defaults. *)
Definition new_User (first_name last_name : string) : Repo User.t :=
  created_at ← datetime_now;
  user_id ← uuid4;
  mret (User.mk None created_at user_id first_name last_name
          "doesnt matter" "doesnt matter" "doesnt matter").

Definition get_default_user : Repo User.t :=
  user ← query (λ w,
    head (filter (λ u, User.first_name u = "Default AI"
                       ∧ User.last_name u = "service user 2") (users w)));
  match user with
  | Some user => mret user
  | None =>
      user ← new_User "Default AI" "service user 2";
      _commit_object user
  end.

(** ** OrganizationRepo *)

Definition new_Organization (name : string) : Repo Organization.t :=
  created_at ← datetime_now;
  organization_id ← uuid4;
  mret (Organization.mk None created_at organization_id name
          "doesnt matter" "doesnt matter").

(** [OrganizationUser(user_id=..., organization_id=...)] *)
Definition new_OrganizationUser (user_id organization_id : UUID)
  : Repo OrganizationUser.t :=
  created_at ← datetime_now;
  mret (OrganizationUser.mk None created_at organization_id user_id "doesnt matter").

Definition get_default_organization : Repo Organization.t :=
  organization ← query (λ w,
    head (filter (λ o, Organization.name o = "Default AI service org 2")
            (organizations w)));
  organization ←
    match organization with
    | Some organization => mret organization
    | None =>
        organization ← new_Organization "Default AI service org 2";
        _commit_object organization
    end;
  user ← get_default_user;
  organization_user ← query (λ w,
    head (filter (λ m, OrganizationUser.user_id m = User.user_id user)
            (organization_users w)));
  match organization_user with
  | Some _ => mret organization
  | None =>
      organization_user ←
        new_OrganizationUser (User.user_id user)
          (Organization.organization_id organization);
      _ ← _commit_object organization_user;
      mret organization
  end.

(** ** CollectionRepo *)

Definition get_collection_resources (collection_id : UUID)
  : Repo (list CollectionResource.t) :=
  query (λ w,
    filter (λ c, CollectionResource.collection_id c = collection_id)
      (collection_resources w)).

(** ** ResourceRepo *)

(** [Resource.status] is declared [ResourceStatus], so its column has the
    type [Enum(ResourceStatus)]: a string is stored as it is, and a stored
    string is loaded as the member it names. *)
Definition is_ResourceStatus (s : string) : Prop :=
  s = ResourceStatus_value pending
  ∨ s = ResourceStatus_value failed
  ∨ s = ResourceStatus_value available.

#[export] Instance is_ResourceStatus_dec s : Decision (is_ResourceStatus s).
Proof. unfold is_ResourceStatus. apply _. Defined.

(** What a session does with the rows that a SELECT of [Resource] has
    fetched, before [first()] or [all()] hands any of them out: each row
    is loaded into an object, and a status that names no member of
    [ResourceStatus] raises [LookupError]. *)
Definition load_resources (fetched : list Resource.t) : Repo (list Resource.t) :=
  if decide (Forall (λ r, is_ResourceStatus (Resource.status r)) fetched)
  then mret fetched
  else raise LookupError.

Definition get_resource (resource_id : UUID) : Repo (option Resource.t) :=
  fetched ← query (λ w,
    filter (λ r, Resource.resource_id r = resource_id) (resources w));
  loaded ← load_resources fetched;
  mret (head loaded).

(** [Resource(organization_id=..., source_entity_type=..., source_entity_id=...)] *)
Definition new_Resource (organization_id : UUID)
    (source_entity_type : ResourceType) (source_entity_id : UUID)
  : Repo Resource.t :=
  created_at ← datetime_now;
  resource_id ← uuid4;
  mret (Resource.mk None created_at organization_id resource_id
          source_entity_type source_entity_id
          (ResourceStatus_value pending) "" (Some "")).

Definition create_resource (organization_id : UUID)
    (source_entity_type : ResourceType) (source_entity_id : UUID)
  : Repo Resource.t :=
  resource ← new_Resource organization_id source_entity_type source_entity_id;
  _commit_object resource.

(** [resource.status = status] on the [None] that [first()] returns for an
    empty result raises [AttributeError] before the session writes.  The
    status is the [str] of the caller, stored as it is. *)
Definition update_resource_status (resource_id : UUID) (status : string)
  : Repo Resource.t :=
  fetched ← query (λ w,
    filter (λ r, Resource.resource_id r = resource_id) (resources w));
  loaded ← load_resources fetched;
  match head loaded with
  | None => raise AttributeError
  | Some resource =>
      let resource := Resource.with_status status resource in
      _ ← session_commit_loaded resource;
      mret resource
  end.

(** The world that the UPDATE of a loaded resource leaves: what
    [session_commit_loaded] does to the table of resources. *)
Definition resources_updated (new : Resource.t) (w : World) : World :=
  set_rows ((λ r, if decide (primary_key r = primary_key new) then new else r)
              <$> resources w) w.

(** [collection_resources[0]] raises [IndexError] on the empty list. *)
Definition get_resources_by_collection_id (collection_id : UUID)
  : Repo (list Resource.t) :=
  collection_resources ← get_collection_resources collection_id;
  match collection_resources !! 0%nat with
  | None => raise IndexError
  | Some first =>
      fetched ← query (λ w,
        filter (λ r, Resource.resource_id r = CollectionResource.resource_id first)
          (resources w));
      load_resources fetched
  end.

(** ** FileRepo *)

Definition get_file (file_id : UUID) : Repo (option File.t) :=
  query (λ w, head (filter (λ f, File.file_id f = file_id) (files w))).

Definition create_file_for_resource (organization : Organization.t)
    (resource : Resource.t) (file_name mime_type : string) (user : User.t)
  : Repo File.t :=
  created_at ← datetime_now;
  _commit_object
    (File.mk None created_at
       (Organization.organization_id organization)
       (Resource.source_entity_id resource)
       (Resource.resource_id resource)
       file_name
       ("files/" +:+ str_uuid (Resource.source_entity_id resource))
       mime_type
       (User.user_id user)
       None).

(** ** MeetingRepo *)

Definition create_meeting (organization : Organization.t)
    (resource : Resource.t) (user : User.t) : Repo Meeting.t :=
  created_at ← datetime_now;
  status_updated_at ← datetime_now;
  _commit_object
    (Meeting.mk None created_at
       (Organization.organization_id organization)
       (Resource.source_entity_id resource)
       (Resource.resource_id resource)
       None None None "doesnt matter" "pending" status_updated_at None
       (User.user_id user)).

Definition get_meeting (meeting_id : UUID) : Repo (option Meeting.t) :=
  query (λ w, head (filter (λ m, Meeting.meeting_id m = meeting_id) (meetings w))).

(** ** WebsiteRepo *)

Definition get_website (website_id : UUID) : Repo (option Website.t) :=
  query (λ w, head (filter (λ s, Website.website_id s = website_id) (websites w))).

Definition create_website (organization : Organization.t)
    (resource : Resource.t) (user : User.t) (url : string) : Repo Website.t :=
  name_id ← uuid4;
  created_at ← datetime_now;
  _commit_object
    (Website.mk None created_at
       (Organization.organization_id organization)
       (Resource.source_entity_id resource)
       (Resource.resource_id resource)
       ("Website " +:+ str_uuid name_id)
       url
       None
       (Some (User.user_id user))).

(** ** ChatRepo *)

Definition get_chat (chat_id organization_id : UUID) : Repo (option Chat.t) :=
  query (λ w,
    head (filter (λ c, Chat.chat_id c = chat_id
                       ∧ Chat.organization_id c = organization_id) (chats w))).

Definition create_chat_message (organization_id chat_id : UUID)
    (type content : string) (message_id owner_user_id : option UUID)
    (arguments : option dict) : Repo ChatMessage.t :=
  message_id ← match message_id with
               | Some message_id => mret message_id
               | None => uuid4
               end;
  created_at ← datetime_now;
  _commit_object
    (ChatMessage.mk None created_at organization_id chat_id message_id
       owner_user_id type content
       (match arguments with
        | Some arguments => arguments
        | None => dict_empty
        end)
       false).

(** The ordering of [order_by(ChatMessage.created_at.desc())]. *)
Definition created_at_desc (a b : ChatMessage.t) : Prop :=
  ChatMessage.created_at b ≤ ChatMessage.created_at a.

#[export] Instance created_at_desc_dec a b : Decision (created_at_desc a b).
Proof. unfold created_at_desc. apply _. Defined.

Definition get_chat_messages (chat_id : UUID) : Repo (list ChatMessage.t) :=
  chat_messages ← query (λ w,
    take 40 (merge_sort created_at_desc
               (filter (λ m, ChatMessage.chat_id m = chat_id) (chat_messages w))));
  mret (reverse chat_messages).

(** The order of the list [get_chat_messages] returns: oldest first. *)
Definition created_at_asc (a b : ChatMessage.t) : Prop :=
  ChatMessage.created_at a ≤ ChatMessage.created_at b.

(** The order of a log whose timestamps never repeat or go back. *)
Definition created_before (a b : ChatMessage.t) : Prop :=
  ChatMessage.created_at a < ChatMessage.created_at b.

(** ** Sample worlds

    The empty shards, with a clock that advances by one at each reading
    and identities drawn in sequence from 1000. *)
Definition world0 : World :=
  mkWorld [] [] [] [] [] [] [] [] [] []
    (λ n, Z.of_nat n) 0 (λ n, 1000 + Z.of_nat n) 0.

Definition sample_resource (organization_id resource_id source_entity_id : UUID)
  : Resource.t :=
  Resource.mk None 0 organization_id resource_id website source_entity_id
    (ResourceStatus_value pending) "" (Some "").

Definition sample_association (organization_id collection_id resource_id : UUID)
  : CollectionResource.t :=
  CollectionResource.mk None 0 organization_id collection_id resource_id.

(** Collection 50 of organization 1 holds resources 20 and 21, in this
    storage order; resource 22 is in no collection. *)
Definition world_collection : World :=
  mkWorld [] [] []
    [sample_association 1 50 20; sample_association 1 50 21]
    [sample_resource 1 20 30; sample_resource 1 21 31; sample_resource 1 22 32]
    [] [] [] [] []
    (λ n, Z.of_nat n) 0 (λ n, 1000 + Z.of_nat n) 0.

(** [world_collection] with the status of resource 21 set to a string
    that names no member of [ResourceStatus]. *)
Definition world_unknown_status : World :=
  mkWorld [] [] []
    [sample_association 1 50 20; sample_association 1 50 21]
    [sample_resource 1 20 30;
     Resource.with_status "bogus" (sample_resource 1 21 31);
     sample_resource 1 22 32]
    [] [] [] [] []
    (λ n, Z.of_nat n) 0 (λ n, 1000 + Z.of_nat n) 0.

(** The service account and its organization as [get_default_user] and
    [get_default_organization] name them. *)
Definition sample_user (user_id : UUID) : User.t :=
  User.mk None 0 user_id "Default AI" "service user 2"
    "doesnt matter" "doesnt matter" "doesnt matter".

Definition sample_organization (organization_id : UUID) : Organization.t :=
  Organization.mk None 0 organization_id "Default AI service org 2"
    "doesnt matter" "doesnt matter".


(** The users shard holds the service account 7, the organizations shard
    the default organization 1 and one membership row, which links the
    service account to another organization, 2. *)
Definition world_member_elsewhere : World :=
  mkWorld [sample_user 7] [sample_organization 1]
    [OrganizationUser.mk None 0 2 7 "doesnt matter"]
    [] [] [] [] [] [] []
    (λ n, Z.of_nat n) 0 (λ n, 1000 + Z.of_nat n) 0.

(** ** A sequence of appends to one chat

    The arguments of one [create_chat_message] call, the chat apart, and
    the calls made one after the other; the run stops at the first call
    that raises. *)
Record message_input := mk_message_input {
  input_organization_id : UUID;
  input_type : string;
  input_content : string;
  input_message_id : option UUID;
  input_owner_user_id : option UUID;
  input_arguments : option dict }.

Fixpoint append_messages (chat_id : UUID) (inputs : list message_input)
  : Repo (list ChatMessage.t) :=
  match inputs with
  | [] => mret []
  | i :: inputs =>
      message ← create_chat_message (input_organization_id i) chat_id
                  (input_type i) (input_content i) (input_message_id i)
                  (input_owner_user_id i) (input_arguments i);
      messages ← append_messages chat_id inputs;
      mret (message :: messages)
  end.

Definition sample_input : message_input :=
  mk_message_input 1 "user" "hello" None (Some 7) None.

(** ** The other operations on the tables above *)

(** *** ResourceRepo *)

Definition Resource_with_ai_summary (s : option string) (r : Resource.t)
  : Resource.t :=
  Resource.mk (Resource.updated_at r) (Resource.created_at r)
    (Resource.organization_id r) (Resource.resource_id r)
    (Resource.source_entity_type r) (Resource.source_entity_id r)
    (Resource.status r) (Resource.name r) s.

Definition update_resource_ai_summary (resource_id : UUID) (ai_summary : string)
  : Repo Resource.t :=
  fetched ← query (λ w,
    filter (λ r, Resource.resource_id r = resource_id) (resources w));
  loaded ← load_resources fetched;
  match head loaded with
  | None => raise AttributeError
  | Some resource =>
      let resource := Resource_with_ai_summary (Some ai_summary) resource in
      _ ← session_commit_loaded resource;
      mret resource
  end.

(** *** CollectionRepo *)

Definition create_collection_resource
    (collection_id organization_id resource_id : UUID)
  : Repo CollectionResource.t :=
  created_at ← datetime_now;
  _commit_object
    (CollectionResource.mk None created_at organization_id collection_id
       resource_id).

(** *** MeetingRepo *)

Definition Meeting_with_transcriptions (s : option string) (m : Meeting.t)
  : Meeting.t :=
  Meeting.mk (Meeting.updated_at m) (Meeting.created_at m)
    (Meeting.organization_id m) (Meeting.meeting_id m) (Meeting.resource_id m)
    (Meeting.provider_meeting_id m) (Meeting.provider_meeting_password m)
    (Meeting.provider_meeting_url m) (Meeting.provider m) (Meeting.status m)
    (Meeting.status_updated_at m) s (Meeting.user_id m).

Definition update_meeting_transcriptions (meeting_id : UUID)
    (transcriptions : string) : Repo Meeting.t :=
  loaded ← query (λ w,
    head (filter (λ m, Meeting.meeting_id m = meeting_id) (meetings w)));
  match loaded with
  | None => raise AttributeError
  | Some loaded =>
      let loaded := Meeting_with_transcriptions (Some transcriptions) loaded in
      _ ← session_commit_loaded loaded;
      mret loaded
  end.

(** *** WebsiteRepo *)

Definition Website_with_parsed_urls (s : option string) (x : Website.t)
  : Website.t :=
  Website.mk (Website.updated_at x) (Website.created_at x)
    (Website.organization_id x) (Website.website_id x) (Website.resource_id x)
    (Website.name x) (Website.url x) s (Website.user_id x).

Definition update_website_parsed_urls (website_id : UUID) (parsed_urls : string)
  : Repo Website.t :=
  loaded ← query (λ w,
    head (filter (λ s, Website.website_id s = website_id) (websites w)));
  match loaded with
  | None => raise AttributeError
  | Some loaded =>
      let loaded := Website_with_parsed_urls (Some parsed_urls) loaded in
      _ ← session_commit_loaded loaded;
      mret loaded
  end.

(** *** ChatRepo *)

Definition create_chat (organization_id user_id : UUID) (type name : string)
  : Repo Chat.t :=
  chat_id ← uuid4;
  created_at ← datetime_now;
  _commit_object
    (Chat.mk None created_at organization_id chat_id user_id type None name).

Definition Chat_with_name (s : string) (c : Chat.t) : Chat.t :=
  Chat.mk (Chat.updated_at c) (Chat.created_at c) (Chat.organization_id c)
    (Chat.chat_id c) (Chat.owner_user_id c) (Chat.type c) (Chat.summary c) s.

(** The chat is selected by [chat_id] alone, where [get_chat] also asks
    for the organization. *)
Definition update_chat_name (chat_id : UUID) (name : string) : Repo Chat.t :=
  chat ← query (λ w,
    head (filter (λ c, Chat.chat_id c = chat_id) (chats w)));
  match chat with
  | None => raise AttributeError
  | Some chat =>
      let chat := Chat_with_name name chat in
      _ ← session_commit_loaded chat;
      mret chat
  end.

(** ** The remaining tables

    [Collection] is the other table of the collections shard,
    [MeetingRecording] of the meetings shard, [ChatResource] and
    [ChatCollection] of the chat shard. *)

Module Collection.
Record t := mk {
  updated_at : option datetime;
  created_at : datetime;
  organization_id : UUID;
  collection_id : UUID;
  name : string;
  color_code : string;
  description : option string }.
End Collection.

Module MeetingRecording.
Record t := mk {
  updated_at : option datetime;
  created_at : datetime;
  organization_id : UUID;
  meeting_id : UUID;
  recording_id : UUID;
  participant_id : option UUID;
  file_id : UUID;
  type : string;
  subtype : string;
  transcriptions : option string;
  started_at : option datetime }.

End MeetingRecording.

Module ChatCollection.
Record t := mk {
  updated_at : option datetime;
  created_at : datetime;
  organization_id : UUID;
  chat_id : UUID;
  collection_id : UUID }.
End ChatCollection.

Module ChatResource.
Record t := mk {
  updated_at : option datetime;
  created_at : datetime;
  organization_id : UUID;
  chat_id : UUID;
  resource_id : UUID }.
End ChatResource.

(** *** FileRepo: the file of a recording *)

Definition create_file_for_meeting_recording (organization : Organization.t)
    (meeting_recording : MeetingRecording.t) (file_name mime_type : string)
    (user : User.t) : Repo File.t :=
  created_at ← datetime_now;
  _commit_object
    (File.mk None created_at
       (Organization.organization_id organization)
       (MeetingRecording.file_id meeting_recording)
       (MeetingRecording.file_id meeting_recording)
       file_name
       ("meetings/" +:+ str_uuid (MeetingRecording.file_id meeting_recording))
       mime_type
       (User.user_id user)
       None).

(** *** All the shards

    The world above, which keeps the oracles, and the four tables it does
    not hold. *)
Record Shards := mkShards {
  core : World;
  collections : list Collection.t;
  meeting_recordings : list MeetingRecording.t;
  chat_resources : list ChatResource.t;
  chat_collections : list ChatCollection.t }.

Definition ShardRepo (A : Type) : Type := Shards → result A * Shards.

#[export] Instance ShardRepo_ret : MRet ShardRepo := λ A a s, (Ok a, s).

#[export] Instance ShardRepo_bind : MBind ShardRepo := λ A B k m s,
  match m s with
  | (Ok a, s') => k a s'
  | (Raise e, s') => (Raise e, s')
  end.

(** A call on the tables of the world, run among all the shards. *)
Definition in_core {A} (m : Repo A) : ShardRepo A := λ s,
  match m (core s) with
  | (r, w') =>
      (r, mkShards w' (collections s) (meeting_recordings s)
            (chat_resources s) (chat_collections s))
  end.

Definition shard_query {A} (q : Shards → A) : ShardRepo A := λ s, (Ok (q s), s).

Definition shard_raise {A} (e : exn) : ShardRepo A := λ s, (Raise e, s).

Class ShardTable (T : Type) := {
  shard_primary_key : T → list UUID;
  shard_rows : Shards → list T;
  set_shard_rows : list T → Shards → Shards;
  shard_rows_set_rows : ∀ l s, shard_rows (set_shard_rows l s) = l }.

#[export] Instance Collection_table : ShardTable Collection.t := {
  shard_primary_key c := [Collection.organization_id c; Collection.collection_id c];
  shard_rows := collections;
  set_shard_rows l s :=
    mkShards (core s) l (meeting_recordings s) (chat_resources s)
      (chat_collections s);
  shard_rows_set_rows _ _ := eq_refl }.

#[export] Instance MeetingRecording_table : ShardTable MeetingRecording.t := {
  shard_primary_key r :=
    [MeetingRecording.organization_id r; MeetingRecording.meeting_id r;
     MeetingRecording.recording_id r];
  shard_rows := meeting_recordings;
  set_shard_rows l s :=
    mkShards (core s) (collections s) l (chat_resources s) (chat_collections s);
  shard_rows_set_rows _ _ := eq_refl }.

#[export] Instance ChatResource_table : ShardTable ChatResource.t := {
  shard_primary_key r :=
    [ChatResource.organization_id r; ChatResource.chat_id r;
     ChatResource.resource_id r];
  shard_rows := chat_resources;
  set_shard_rows l s :=
    mkShards (core s) (collections s) (meeting_recordings s) l
      (chat_collections s);
  shard_rows_set_rows _ _ := eq_refl }.

#[export] Instance ChatCollection_table : ShardTable ChatCollection.t := {
  shard_primary_key c :=
    [ChatCollection.organization_id c; ChatCollection.chat_id c;
     ChatCollection.collection_id c];
  shard_rows := chat_collections;
  set_shard_rows l s :=
    mkShards (core s) (collections s) (meeting_recordings s)
      (chat_resources s) l;
  shard_rows_set_rows _ _ := eq_refl }.

(** [BaseRepo._commit_object] and the UPDATE of a loaded object, on these
    tables: the statements of [_commit_object] and [session_commit_loaded]
    above. *)
Definition shard_commit_object `{ShardTable T} (obj : T) : ShardRepo T := λ s,
  if decide (shard_primary_key obj ∈ shard_primary_key <$> shard_rows s)
  then (Raise IntegrityError, s)
  else
    let s' := set_shard_rows (shard_rows s ++ [obj]) s in
    match head (filter (λ r, shard_primary_key r = shard_primary_key obj)
                  (shard_rows s')) with
    | Some stored => (Ok stored, s')
    | None => (Raise InvalidRequestError, s')
    end.


(** *** CollectionRepo: collections *)

(** [name if name else f"Collection {uuid.uuid4()}"]: the empty name is
    replaced like the missing one. *)
Definition create_collection (organization_id : UUID) (name : option string)
  : ShardRepo Collection.t :=
  name ← match name with
         | Some (String a s) => mret (String a s)
         | Some "" | None =>
             placeholder ← in_core uuid4;
             mret ("Collection " +:+ str_uuid placeholder)
         end;
  created_at ← in_core datetime_now;
  collection_id ← in_core uuid4;
  shard_commit_object
    (Collection.mk None created_at organization_id collection_id name
       "#000000" None).

(** *** MeetingRepo: recordings *)

Definition create_meeting_mixed_recording
    (organization_id meeting_id file_id : UUID) : ShardRepo MeetingRecording.t :=
  created_at ← in_core datetime_now;
  recording_id ← in_core uuid4;
  shard_commit_object
    (MeetingRecording.mk None created_at organization_id meeting_id
       recording_id None file_id "audio" "mixed" None None).

Definition get_meeting_recording_by_meeting_id (meeting_id : UUID)
  : ShardRepo (option MeetingRecording.t) :=
  shard_query (λ s,
    head (filter (λ r, MeetingRecording.meeting_id r = meeting_id)
            (meeting_recordings s))).


(** *** ChatRepo: the resources and collections of a chat *)

Definition add_resource_to_chat (organization_id chat_id resource_id : UUID)
  : ShardRepo ChatResource.t :=
  created_at ← in_core datetime_now;
  shard_commit_object
    (ChatResource.mk None created_at organization_id chat_id resource_id).

Definition add_collection_to_chat (organization_id chat_id collection_id : UUID)
  : ShardRepo ChatCollection.t :=
  created_at ← in_core datetime_now;
  shard_commit_object
    (ChatCollection.mk None created_at organization_id chat_id collection_id).

Definition get_chat_resources (chat_id : UUID) : ShardRepo (list ChatResource.t) :=
  shard_query (λ s,
    filter (λ r, ChatResource.chat_id r = chat_id) (chat_resources s)).

Definition get_chat_collections (chat_id : UUID)
  : ShardRepo (list ChatCollection.t) :=
  shard_query (λ s,
    filter (λ c, ChatCollection.chat_id c = chat_id) (chat_collections s)).

(** All shards empty, over [world0]. *)
Definition shards0 : Shards := mkShards world0 [] [] [] [].

Definition sample_meeting (organization_id meeting_id resource_id : UUID)
  : Meeting.t :=
  Meeting.mk None 0 organization_id meeting_id resource_id None None None
    "doesnt matter" "pending" 0 None 7.

Definition sample_website (organization_id website_id resource_id : UUID)
  : Website.t :=
  Website.mk None 0 organization_id website_id resource_id "Website"
    "https://example.com" None (Some 7).

Definition sample_chat (organization_id chat_id : UUID) (name : string) : Chat.t :=
  Chat.mk None 0 organization_id chat_id 7 "assistant" None name.

(** Organization 1 holds the meeting 40 of resource 20 and the website 41
    of resource 21; the chat identity 5 is in use in organization 1 and in
    organization 2. *)
Definition world_entities : World :=
  mkWorld [] [] [] []
    [sample_resource 1 20 40; sample_resource 1 21 41]
    []
    [sample_meeting 1 40 20]
    [sample_website 1 41 21]
    [sample_chat 1 5 "first"; sample_chat 2 5 "second"]
    []
    (λ n, Z.of_nat n) 0 (λ n, 1000 + Z.of_nat n) 0.

(** ** models.py: the column type of identities and the names of tables *)

(** [UUIDString.process_bind_param]: what is sent to the engine for an
    identity, and [process_result_value]: what a loaded row holds. *)
Definition process_bind_param (value : option UUID) : option string :=
  match value with
  | Some value => Some (str_uuid value)
  | None => None
  end.

Definition process_result_value (value : option string) : option string :=
  value.

(** [A-Z], and [str.lower] on the characters of an identifier. *)
Definition is_upper (c : Ascii.ascii) : bool :=
  (65 <=? Ascii.nat_of_ascii c)%nat && (Ascii.nat_of_ascii c <=? 90)%nat.

Definition to_lower (c : Ascii.ascii) : Ascii.ascii :=
  if is_upper c then Ascii.ascii_of_nat (Ascii.nat_of_ascii c + 32) else c.

Fixpoint lower (s : string) : string :=
  match s with
  | EmptyString => EmptyString
  | String c s => String (to_lower c) (lower s)
  end.

(** The character ["_"]. *)
Definition underscore : Ascii.ascii := Ascii.ascii_of_nat 95.

(** [re.sub(r"(?<!^)(?=[A-Z])", "_", name)], from the second character
    on: an underscore goes before each capital. *)
Fixpoint underscore_capitals (s : string) : string :=
  match s with
  | EmptyString => EmptyString
  | String c s =>
      if is_upper c then String underscore (String c (underscore_capitals s))
      else String c (underscore_capitals s)
  end.

(** [BaseTable.__tablename__], of the class of name [name]. *)
Definition __tablename__ (name : string) : string :=
  let name :=
    match name with
    | EmptyString => EmptyString
    | String c s => String c (underscore_capitals s)
    end in
  lower name +:+ "s".

(** A name made of a capital followed by letters, as the classes of
    [models.py] are named. *)
Definition is_letter (c : Ascii.ascii) : bool :=
  is_upper c || ((97 <=? Ascii.nat_of_ascii c)%nat && (Ascii.nat_of_ascii c <=? 122)%nat).

Fixpoint all_letters (s : string) : bool :=
  match s with
  | EmptyString => true
  | String c s => is_letter c && all_letters s
  end.

Definition is_class_name (name : string) : bool :=
  match name with
  | EmptyString => false
  | String c s => is_upper c && all_letters s
  end.

(** The classes that [models.py] maps to tables. *)
Definition model_classes : list string :=
  ["User"; "Organization"; "OrganizationUser"; "Collection";
   "CollectionResource"; "Resource"; "File"; "Meeting"; "MeetingParticipant";
   "MeetingRecording"; "Website"; "Chat"; "ChatCollection"; "ChatUser";
   "ChatResource"; "ChatMessage"].

(** * Properties *)

(** ** The engine's statements *)

(** Unfolds the monad wherever it occurs. *)
Ltac run_repo :=
  unfold mbind, Repo_bind, mret, Repo_ret, query, raise in *; simpl in *.

(** Runs the first call of the sequence in [H : (x ← m; k) w = (Ok _, _)]:
    the call returned [v] in the world [w], as [E] records. *)
Ltac run_step H v w E :=
  unfold mbind at 1, Repo_bind at 1 in H;
  lazymatch type of H with
  | match ?step with _ => _ end = _ =>
      destruct step as [[v|?] w] eqn:E; [|discriminate H]
  end.

Section statements.
Context {A : Type} (P : A → Prop) `{!∀ x, Decision (P x)}.

Lemma first_None (l : list A) :
  Forall (λ x, ¬ P x) l → head (filter P l) = None.
Proof.
  induction 1 as [|x l Hx _ IH]; [done|].
  by rewrite filter_cons_False.
Qed.

Lemma first_None_inv (l : list A) :
  head (filter P l) = None → Forall (λ x, ¬ P x) l.
Proof.
  induction l as [|x l IH]; [constructor|].
  rewrite filter_cons. case_decide; [done|]. intros. constructor; auto.
Qed.

Lemma first_Some (l : list A) (x : A) :
  head (filter P l) = Some x → x ∈ l ∧ P x.
Proof.
  intros Hx. apply head_Some_elem_of in Hx.
  by apply list_elem_of_filter in Hx as [? ?].
Qed.

Lemma first_snoc_None (l : list A) (x : A) :
  head (filter P l) = None → P x → head (filter P (l ++ [x])) = Some x.
Proof.
  intros Hl Hx. apply first_None_inv in Hl.
  rewrite filter_app, (filter_cons_True _ x []) by done.
  replace (filter P l) with (@nil A); [done|].
  symmetry. induction Hl; [done|]. by rewrite filter_cons_False.
Qed.

Lemma first_snoc_Some (l : list A) (x y : A) :
  head (filter P l) = Some y → head (filter P (l ++ [x])) = Some y.
Proof.
  intros Hl. rewrite filter_app.
  destruct (filter P l); [done|]. done.
Qed.
End statements.

(** ** The UPDATE of a loaded row *)

Section update_statement.
Context {T : Type} (key : T → list UUID).

(** The row that a SELECT fetched first is, once rewritten under its own
    key, the row the same SELECT fetches first afterwards, when the
    selecting column is part of the key. *)
Lemma updated_first (P : T → Prop) `{!∀ x, Decision (P x)}
    (loaded new : T) (l : list T) :
  head (filter P l) = Some loaded →
  key new = key loaded →
  (∀ r, key r = key loaded → P r) →
  head (filter P ((λ r, if decide (key r = key new) then new else r) <$> l))
  = Some new.
Proof.
  intros Hloaded Hkey Hsel. induction l as [|x l IH]; [done|].
  revert Hloaded. rewrite fmap_cons, filter_cons. case_decide as Hx.
  - intros [= ->]. rewrite decide_True by done.
    rewrite filter_cons_True; [done|]. by apply Hsel.
  - intros Hl. rewrite decide_False.
    + rewrite filter_cons_False by done. auto.
    + intros Hxkey. apply Hx, Hsel. congruence.
Qed.

(** A SELECT on a condition that no row of the rewritten key meets
    fetches what it fetched before. *)
Lemma updated_frame (Q : T → Prop) `{!∀ x, Decision (Q x)}
    (new : T) (l : list T) :
  (∀ r, key r = key new → ¬ Q r) →
  filter Q ((λ r, if decide (key r = key new) then new else r) <$> l)
  = filter Q l.
Proof.
  intros Hout. induction l as [|x l IH]; [done|].
  rewrite fmap_cons. case_decide as Hx.
  - rewrite !filter_cons_False; [done|by apply Hout..].
  - rewrite !filter_cons. by rewrite IH.
Qed.

End update_statement.

(** A SELECT that no row satisfies fetches nothing. *)
Lemma select_none {A : Type} (P : A → Prop) `{!∀ x, Decision (P x)}
    (l : list A) :
  Forall (λ x, ¬ P x) l → filter P l = [].
Proof. induction 1; [done|]. by rewrite filter_cons_False. Qed.

(** The rows a SELECT fetches after the UPDATE satisfy what the rows it
    fetched before and the rewritten row satisfy. *)
Lemma updated_Forall {T : Type} (key : T → list UUID)
    (P Q : T → Prop) `{!∀ x, Decision (P x)} (new : T) (l : list T) :
  Forall Q (filter P l) → Q new →
  Forall Q (filter P ((λ r, if decide (key r = key new) then new else r) <$> l)).
Proof.
  intros Hl Hnew. induction l as [|x l IH]; [constructor|].
  rewrite filter_cons in Hl.
  assert (Forall Q (filter P l)) as Hrest
    by (destruct (decide (P x)); [by apply Forall_cons in Hl as [_ ?] | done]).
  rewrite fmap_cons, filter_cons.
  destruct (decide (P (if decide (key x = key new) then new else x)))
    as [HP|HP]; [|auto].
  constructor; [|auto].
  destruct (decide (key x = key new)); [done|].
  rewrite decide_True in Hl by done. by apply Forall_cons in Hl as [? _].
Qed.

(** What holds of every row of a table holds of every row fetched. *)
Lemma Forall_select {A : Type} (P Q : A → Prop) `{!∀ x, Decision (P x)}
    (l : list A) :
  Forall Q l → Forall Q (filter P l).
Proof.
  rewrite !Forall_forall. intros Hl x [_ Hx]%list_elem_of_filter. auto.
Qed.

(** ** The load of resources *)

Lemma load_resources_members (fetched : list Resource.t) (w : World) :
  Forall (λ r, is_ResourceStatus (Resource.status r)) fetched →
  load_resources fetched w = (Ok fetched, w).
Proof. intros Hvalid. unfold load_resources. by rewrite decide_True. Qed.

Lemma load_resources_Ok (fetched loaded : list Resource.t) (w w' : World) :
  load_resources fetched w = (Ok loaded, w') →
  loaded = fetched ∧ w' = w
  ∧ Forall (λ r, is_ResourceStatus (Resource.status r)) fetched.
Proof.
  unfold load_resources. case_decide; [|done]. by intros [= <- <-].
Qed.

Lemma get_resource_members (resource_id : UUID) (w : World) :
  Forall (λ r, is_ResourceStatus (Resource.status r))
    (filter (λ r, Resource.resource_id r = resource_id) (resources w)) →
  get_resource resource_id w
  = (Ok (head (filter (λ r, Resource.resource_id r = resource_id)
                 (resources w))), w).
Proof.
  intros Hvalid. unfold get_resource. unfold mbind, Repo_bind, query.
  by rewrite load_resources_members.
Qed.


(** ** Lookups of a single entity *)

(** C10. When no row of the shard carries the identifier, [get_resource],
    [get_file], [get_meeting], [get_website] and [get_chat] each return
    [None] instead of raising, and leave the world as it was. *)
Theorem lookup_absent_returns_None (w : World)
    (resource_id file_id meeting_id website_id chat_id organization_id : UUID) :
  (Forall (λ r, Resource.resource_id r ≠ resource_id) (resources w) →
   get_resource resource_id w = (Ok None, w))
  ∧ (Forall (λ f, File.file_id f ≠ file_id) (files w) →
     get_file file_id w = (Ok None, w))
  ∧ (Forall (λ m, Meeting.meeting_id m ≠ meeting_id) (meetings w) →
     get_meeting meeting_id w = (Ok None, w))
  ∧ (Forall (λ s, Website.website_id s ≠ website_id) (websites w) →
     get_website website_id w = (Ok None, w))
  ∧ (Forall (λ c, ¬ (Chat.chat_id c = chat_id
                     ∧ Chat.organization_id c = organization_id)) (chats w) →
     get_chat chat_id organization_id w = (Ok None, w)).
Proof.
  split.
  - intros Habsent.
    rewrite get_resource_members; by rewrite select_none.
  - unfold get_file, get_meeting, get_website, get_chat, query.
    repeat split; intros Habsent; by rewrite first_None.
Qed.

Lemma lookup_absent_returns_None_witness :
  get_resource 23 world_collection = (Ok None, world_collection)
  ∧ get_file 23 world_collection = (Ok None, world_collection)
  ∧ get_meeting 23 world_collection = (Ok None, world_collection)
  ∧ get_website 23 world_collection = (Ok None, world_collection)
  ∧ get_chat 23 1 world_collection = (Ok None, world_collection).
Proof.
  destruct (lookup_absent_returns_None world_collection 23 23 23 23 23 1)
    as (Hr & Hf & Hm & Hs & Hc).
  split; [apply Hr | split; [apply Hf | split; [apply Hm | split;
    [apply Hs | apply Hc]]]];
    simpl; repeat constructor; simpl; lia.
Defined.

(** ** Resources of a collection *)

(** C9. For a collection without association rows
    [get_resources_by_collection_id] raises [IndexError] (it returns no
    sequence, empty or not) and leaves the world as it was; the call
    returns only when the collection has an association row, and then it
    does return where the stored resources have statuses that name
    members of [ResourceStatus]. *)
Theorem get_resources_by_collection_id_needs_association
    (w : World) (collection_id : UUID) :
  (Forall (λ c, CollectionResource.collection_id c ≠ collection_id)
     (collection_resources w) →
   get_resources_by_collection_id collection_id w = (Raise IndexError, w))
  ∧ ((∃ resources w', get_resources_by_collection_id collection_id w
                      = (Ok resources, w')) →
     Exists (λ c, CollectionResource.collection_id c = collection_id)
       (collection_resources w))
  ∧ (Exists (λ c, CollectionResource.collection_id c = collection_id)
       (collection_resources w) →
     Forall (λ r, is_ResourceStatus (Resource.status r)) (resources w) →
     ∃ resources,
       get_resources_by_collection_id collection_id w = (Ok resources, w)).
Proof.
  unfold get_resources_by_collection_id, get_collection_resources.
  unfold mbind, Repo_bind, query, raise. split; [|split].
  - intros Hnone. by rewrite select_none.
  - intros (rs & w' & Hrun).
    destruct (filter _ (collection_resources w)) as [|c l] eqn:Hrows;
      [done|].
    assert (c ∈ filter (λ c, CollectionResource.collection_id c = collection_id)
                  (collection_resources w)) as Hc
      by (rewrite Hrows; left).
    apply list_elem_of_filter in Hc as [? ?].
    apply Exists_exists. eauto.
  - intros (c & Hc & Hid)%Exists_exists Hmembers.
    assert (c ∈ filter (λ c, CollectionResource.collection_id c = collection_id)
                  (collection_resources w)) as Hin
      by (by apply list_elem_of_filter).
    destruct (filter _ (collection_resources w)) as [|c' l];
      [by apply elem_of_nil in Hin|].
    simpl. rewrite load_resources_members; [eauto|].
    by apply Forall_select.
Qed.

Lemma get_resources_by_collection_id_needs_association_witness :
  get_resources_by_collection_id 51 world_collection
  = (Raise IndexError, world_collection).
Proof.
  apply (get_resources_by_collection_id_needs_association world_collection 51).
  simpl. repeat constructor; simpl; lia.
Defined.

(** C7. For a collection with association rows, where the resources
    that the first fetched row selects have statuses that name members of
    [ResourceStatus], [get_resources_by_collection_id] returns the
    resources selected by the first fetched row alone: each returned
    resource carries that row's [resource_id], and a resource that only
    another row of the collection refers to is not returned. *)
Theorem get_resources_by_collection_id_first_only
    (w : World) (collection_id : UUID)
    (first : CollectionResource.t) (others : list CollectionResource.t) :
  get_collection_resources collection_id w = (Ok (first :: others), w) →
  Forall (λ r, is_ResourceStatus (Resource.status r))
    (filter (λ r, Resource.resource_id r = CollectionResource.resource_id first)
       (resources w)) →
  ∃ returned,
    get_resources_by_collection_id collection_id w = (Ok returned, w)
    ∧ returned
      = filter (λ r, Resource.resource_id r = CollectionResource.resource_id first)
          (resources w)
    ∧ Forall (λ r, Resource.resource_id r = CollectionResource.resource_id first)
        returned
    ∧ ∀ other r,
        other ∈ others →
        CollectionResource.resource_id other ≠ CollectionResource.resource_id first →
        Resource.resource_id r = CollectionResource.resource_id other →
        r ∉ returned.
Proof.
  unfold get_resources_by_collection_id, get_collection_resources.
  unfold mbind, Repo_bind, query. intros [= Hrows] Hmembers. rewrite Hrows.
  simpl. rewrite load_resources_members by done.
  eexists. split; [done|]. split; [done|]. split.
  - apply Forall_forall. by intros r [? _]%list_elem_of_filter.
  - intros other r _ Hne Hr [? _]%list_elem_of_filter. congruence.
Qed.

Lemma get_resources_by_collection_id_first_only_witness :
  ∃ returned,
    get_resources_by_collection_id 50 world_collection = (Ok returned, world_collection)
    ∧ returned = [sample_resource 1 20 30]
    ∧ sample_resource 1 21 31 ∉ returned.
Proof.
  destruct (get_resources_by_collection_id_first_only world_collection 50
              (sample_association 1 50 20) [sample_association 1 50 21] eq_refl)
    as (returned & Hrun & Hsel & _ & Hothers).
  { simpl. repeat constructor. }
  exists returned. split; [exact Hrun|]. split; [exact Hsel|].
  apply (Hothers (sample_association 1 50 21)); [by left | simpl; lia | done].
Defined.

(** ** The commit primitive *)

Section commit.
Context `{Table T}.

Lemma commit_object_fresh (obj : T) (w : World) :
  primary_key obj ∉ (primary_key <$> rows w) →
  _commit_object obj w = (Ok obj, set_rows (rows w ++ [obj]) w).
Proof.
  intros Hfresh. unfold _commit_object.
  rewrite decide_False, rows_set_rows by done.
  rewrite first_snoc_None; [done| |done].
  apply first_None, Forall_forall. intros r Hr Hkey.
  apply Hfresh, list_elem_of_fmap. eauto.
Qed.

Lemma commit_object_taken (obj : T) (w : World) :
  primary_key obj ∈ (primary_key <$> rows w) →
  _commit_object obj w = (Raise IntegrityError, w).
Proof. intros Htaken. unfold _commit_object. by rewrite decide_True. Qed.

Lemma commit_object_Ok (obj stored : T) (w w' : World) :
  _commit_object obj w = (Ok stored, w') →
  stored = obj ∧ w' = set_rows (rows w ++ [obj]) w
  ∧ primary_key obj ∉ (primary_key <$> rows w).
Proof.
  destruct (decide (primary_key obj ∈ (primary_key <$> rows w))) as [Hin|Hout].
  - by rewrite commit_object_taken.
  - rewrite commit_object_fresh by done. by intros [= <- <-].
Qed.
End commit.




(** ** ResourceRepo: the status of a resource *)

Lemma update_resource_status_members (resource_id : UUID) (status : string)
    (w : World) (loaded : Resource.t) :
  Forall (λ r, is_ResourceStatus (Resource.status r))
    (filter (λ r, Resource.resource_id r = resource_id) (resources w)) →
  head (filter (λ r, Resource.resource_id r = resource_id) (resources w))
  = Some loaded →
  update_resource_status resource_id status w
  = (Ok (Resource.with_status status loaded),
     resources_updated (Resource.with_status status loaded) w).
Proof.
  intros Hmembers Hloaded. unfold update_resource_status.
  unfold mbind, Repo_bind, query.
  by rewrite load_resources_members, Hloaded.
Qed.

Lemma update_resource_status_Ok (resource_id : UUID) (status : string)
    (w w' : World) (updated : Resource.t) :
  update_resource_status resource_id status w = (Ok updated, w') →
  ∃ loaded,
    Forall (λ r, is_ResourceStatus (Resource.status r))
      (filter (λ r, Resource.resource_id r = resource_id) (resources w))
    ∧ head (filter (λ r, Resource.resource_id r = resource_id) (resources w))
      = Some loaded
    ∧ updated = Resource.with_status status loaded
    ∧ w' = resources_updated (Resource.with_status status loaded) w.
Proof.
  unfold update_resource_status. unfold mbind at 1, Repo_bind at 1, query.
  intros Hrun. run_step Hrun fetched w1 Hload.
  apply load_resources_Ok in Hload as (-> & -> & Hmembers).
  destruct (head (filter _ (resources w))) as [loaded|] eqn:Hloaded; [|done].
  exists loaded. by injection Hrun as <- <-.
Qed.

(** After the UPDATE of the row that the SELECT by [resource_id] fetched
    first, [get_resource] returns the rewritten row, when its status
    names a member of [ResourceStatus] as those of the rows fetched with
    it do. *)
Lemma get_resource_updated (resource_id : UUID) (loaded new : Resource.t)
    (w : World) :
  head (filter (λ r, Resource.resource_id r = resource_id) (resources w))
  = Some loaded →
  Forall (λ r, is_ResourceStatus (Resource.status r))
    (filter (λ r, Resource.resource_id r = resource_id) (resources w)) →
  primary_key new = primary_key loaded →
  is_ResourceStatus (Resource.status new) →
  get_resource resource_id (resources_updated new w)
  = (Ok (Some new), resources_updated new w).
Proof.
  intros Hloaded Hmembers Hkey Hstatus.
  pose proof (first_Some _ _ _ Hloaded) as [_ Hid].
  rewrite get_resource_members.
  - f_equal. f_equal. unfold resources_updated.
    change (resources (set_rows ?l w)) with l.
    apply (updated_first primary_key _ loaded); [done..|].
    intros r [= _ Hr]. congruence.
  - unfold resources_updated. change (resources (set_rows ?l w)) with l.
    by apply (updated_Forall primary_key).
Qed.

(** C3, as the code has it.  When no row carries [resource_id],
    [update_resource_status] raises the [AttributeError] of the attribute
    assignment on [None], and the world is as before. *)
Theorem update_resource_status_absent
    (w : World) (resource_id : UUID) (status : string) :
  Forall (λ r, Resource.resource_id r ≠ resource_id) (resources w) →
  update_resource_status resource_id status w = (Raise AttributeError, w).
Proof.
  intros Habsent. unfold update_resource_status.
  unfold mbind, Repo_bind, query, raise.
  rewrite select_none by done.
  by rewrite load_resources_members by constructor.
Qed.

Lemma update_resource_status_absent_witness :
  update_resource_status 23 "available" world_collection
  = (Raise AttributeError, world_collection).
Proof.
  apply (update_resource_status_absent world_collection 23 "available").
  simpl. repeat constructor; simpl; lia.
Defined.

(** C3 as stated fails: for the identifier 23, which no resource of the
    shard carries, the exception raised is not a [NotFoundError]. *)
Lemma update_resource_status_not_NotFoundError :
  Forall (λ r, Resource.resource_id r ≠ 23) (resources world_collection)
  ∧ ∃ e,
      update_resource_status 23 "available" world_collection
      = (Raise e, world_collection)
      ∧ exn_name e ≠ "NotFoundError".
Proof.
  split; [repeat constructor; simpl; lia|].
  exists AttributeError. split; [reflexivity | discriminate].
Qed.

Lemma new_Resource_run (organization_id : UUID) (type : ResourceType)
    (source_entity_id : UUID) (w : World) :
  ∃ resource w',
    new_Resource organization_id type source_entity_id w = (Ok resource, w')
    ∧ Resource.status resource = ResourceStatus_value pending
    ∧ Resource.organization_id resource = organization_id
    ∧ Resource.resource_id resource = entropy w (draws w)
    ∧ Resource.source_entity_type resource = type
    ∧ Resource.source_entity_id resource = source_entity_id
    ∧ resources w' = resources w.
Proof. unfold new_Resource, datetime_now, uuid4. run_repo. eauto 10. Qed.

(** [create_resource] returns whenever the identity it draws is not
    already the key of a resource of the organization. *)
Lemma create_resource_returns (organization_id : UUID) (type : ResourceType)
    (source_entity_id : UUID) (w : World) :
  [organization_id; entropy w (draws w)] ∉ (primary_key <$> resources w) →
  ∃ resource w',
    create_resource organization_id type source_entity_id w = (Ok resource, w').
Proof.
  intros Hfresh. unfold create_resource. 
  destruct (new_Resource_run organization_id type source_entity_id w)
    as (resource & w1 & Hnew & _ & Horg & Hid & _ & _ & Hrows).
  unfold mbind, Repo_bind. rewrite Hnew.
  rewrite commit_object_fresh; [eauto|].
  simpl. rewrite Horg, Hid, Hrows. done.
Qed.

(** C6, as the code has it.  A resource that [create_resource] returns
    has status [pending]; and when a resource carries [resource_id] and
    the stored resources of that [resource_id] have statuses that name
    members of [ResourceStatus], [update_resource_status resource_id
    "available"] returns and the [get_resource resource_id] that follows
    returns a resource with status [available]. *)
Theorem resource_status_transition (w : World)
    (organization_id : UUID) (type : ResourceType)
    (source_entity_id resource_id : UUID) :
  (∀ resource w',
     create_resource organization_id type source_entity_id w = (Ok resource, w') →
     Resource.status resource = ResourceStatus_value pending)
  ∧ (Exists (λ r, Resource.resource_id r = resource_id) (resources w) →
     Forall (λ r, is_ResourceStatus (Resource.status r))
       (filter (λ r, Resource.resource_id r = resource_id) (resources w)) →
     ∃ updated w',
       update_resource_status resource_id "available" w = (Ok updated, w')
       ∧ ∃ resource,
           get_resource resource_id w' = (Ok (Some resource), w')
           ∧ Resource.resource_id resource = resource_id
           ∧ Resource.status resource = ResourceStatus_value available).
Proof.
  split.
  - intros resource w'. unfold create_resource.
    destruct (new_Resource_run organization_id type source_entity_id w)
      as (fresh & w1 & Hnew & Hstatus & _).
    unfold mbind, Repo_bind. rewrite Hnew.
    intros Hcommit. by apply commit_object_Ok in Hcommit as [-> _].
  - intros (r & Hr & Hid)%Exists_exists Hmembers.
    destruct (head (filter (λ r, Resource.resource_id r = resource_id)
                      (resources w))) as [loaded|] eqn:Hloaded.
    + rewrite (update_resource_status_members _ _ _ loaded) by done.
      do 2 eexists. split; [done|].
      exists (Resource.with_status "available" loaded).
      split; [|split; [|done]].
      * apply (get_resource_updated _ loaded); [done..|].
        right. by right.
      * by apply first_Some in Hloaded as [_ ?].
    + apply first_None_inv in Hloaded.
      rewrite Forall_forall in Hloaded. by destruct (Hloaded r Hr).
Qed.

Lemma resource_status_transition_witness :
  (∃ resource w',
     create_resource 1 website 33 world_collection = (Ok resource, w')
     ∧ Resource.status resource = "pending")
  ∧ ∃ updated w',
      update_resource_status 21 "available" world_collection = (Ok updated, w')
      ∧ ∃ resource,
          get_resource 21 w' = (Ok (Some resource), w')
          ∧ Resource.resource_id resource = 21
          ∧ Resource.status resource = "available".
Proof.
  destruct (resource_status_transition world_collection 1 website 33 21)
    as [Hcreate Hupdate].
  split.
  - do 2 eexists. split; [reflexivity|].
    eapply Hcreate. reflexivity.
  - apply Hupdate.
    + simpl. right. left. reflexivity.
    + simpl. repeat constructor.
Defined.

(** C6 as stated fails.  In [world_unknown_status], the state in which
    [update_resource_status 21 "bogus"] leaves [world_collection], the
    resource 21 exists, and [update_resource_status 21 "available"] does
    not return: its SELECT raises [LookupError] on the stored status, and
    so does [get_resource 21]. *)
Lemma resource_status_transition_unknown_status :
  snd (update_resource_status 21 "bogus" world_collection) = world_unknown_status
  ∧ Exists (λ r, Resource.resource_id r = 21) (resources world_unknown_status)
  ∧ update_resource_status 21 "available" world_unknown_status
    = (Raise LookupError, world_unknown_status)
  ∧ get_resource 21 world_unknown_status
    = (Raise LookupError, world_unknown_status).
Proof.
  split; [reflexivity|]. split; [right; left; reflexivity|].
  split; reflexivity.
Qed.

(** ** FileRepo, MeetingRepo, WebsiteRepo: the concrete entity of a resource *)

(** C5. The file that [create_file_for_resource] returns has the
    resource's [source_entity_id] as its [file_id] and the resource's
    [resource_id] as its [resource_id]; so have the meeting of
    [create_meeting] and the website of [create_website], with
    [meeting_id] and [website_id]. *)
Theorem concrete_entity_binding (w : World)
    (organization : Organization.t) (resource : Resource.t) (user : User.t)
    (file_name mime_type url : string) :
  (∀ f w',
     create_file_for_resource organization resource file_name mime_type user w
     = (Ok f, w') →
     File.file_id f = Resource.source_entity_id resource
     ∧ File.resource_id f = Resource.resource_id resource)
  ∧ (∀ m w',
       create_meeting organization resource user w = (Ok m, w') →
       Meeting.meeting_id m = Resource.source_entity_id resource
       ∧ Meeting.resource_id m = Resource.resource_id resource)
  ∧ (∀ s w',
       create_website organization resource user url w = (Ok s, w') →
       Website.website_id s = Resource.source_entity_id resource
       ∧ Website.resource_id s = Resource.resource_id resource).
Proof.
  unfold create_file_for_resource, create_meeting, create_website,
    datetime_now, uuid4.
  run_repo.
  split; [|split]; intros x w' Hcommit;
    by apply commit_object_Ok in Hcommit as (-> & _).
Qed.

Lemma concrete_entity_binding_witness :
  (∃ f w',
     create_file_for_resource (sample_organization 1) (sample_resource 1 22 32)
       "notes.txt" "text/plain" (sample_user 7) world_collection = (Ok f, w')
     ∧ File.file_id f = 32 ∧ File.resource_id f = 22)
  ∧ (∃ m w',
       create_meeting (sample_organization 1) (sample_resource 1 22 32)
         (sample_user 7) world_collection = (Ok m, w')
       ∧ Meeting.meeting_id m = 32 ∧ Meeting.resource_id m = 22)
  ∧ (∃ s w',
       create_website (sample_organization 1) (sample_resource 1 22 32)
         (sample_user 7) "https://example.com" world_collection = (Ok s, w')
       ∧ Website.website_id s = 32 ∧ Website.resource_id s = 22).
Proof.
  destruct (concrete_entity_binding world_collection (sample_organization 1)
              (sample_resource 1 22 32) (sample_user 7)
              "notes.txt" "text/plain" "https://example.com")
    as (Hfile & Hmeeting & Hwebsite).
  split; [|split]; do 2 eexists.
  - split; [reflexivity|]. eapply Hfile. reflexivity.
  - split; [reflexivity|]. eapply Hmeeting. reflexivity.
  - split; [reflexivity|]. eapply Hwebsite. reflexivity.
Defined.

(** ** UserRepo and OrganizationRepo: the default rows *)

Lemma get_default_user_found (w : World) (user : User.t) :
  head (filter (λ u, User.first_name u = "Default AI"
                     ∧ User.last_name u = "service user 2") (users w))
  = Some user →
  get_default_user w = (Ok user, w).
Proof. intros Hfound. unfold get_default_user. run_repo. by rewrite Hfound. Qed.

(** [get_default_user] returns whenever the identity it may have to draw
    is not already the key of a user. *)
Lemma get_default_user_returns (w : World) :
  [entropy w (draws w)] ∉ (primary_key <$> users w) →
  ∃ user w', get_default_user w = (Ok user, w').
Proof.
  intros Hfresh. unfold get_default_user. run_repo.
  destruct (head (filter _ (users w))) as [found|]; [eauto|].
  unfold new_User, datetime_now, uuid4. run_repo.
  rewrite commit_object_fresh by done. eauto.
Qed.

(** A call that returns leaves the returned user as the first sentinel
    row of the users shard, and the organizations shard as it was. *)
Lemma get_default_user_Ok (w w' : World) (user : User.t) :
  get_default_user w = (Ok user, w') →
  head (filter (λ u, User.first_name u = "Default AI"
                     ∧ User.last_name u = "service user 2") (users w'))
  = Some user
  ∧ organizations w' = organizations w
  ∧ organization_users w' = organization_users w.
Proof.
  unfold get_default_user. run_repo.
  destruct (head (filter _ (users w))) as [found|] eqn:Hfound.
  - by intros [= <- <-].
  - unfold new_User, datetime_now, uuid4. run_repo.
    intros Hcommit. apply commit_object_Ok in Hcommit as (-> & -> & _).
    simpl. split; [|done]. by apply first_snoc_None.
Qed.

(** The first step of [get_default_organization], the organization found
    or created: when it returns, the organization it returns is the first
    row of that name, and only the table of organizations has changed. *)
Lemma default_organization_step_Ok (w wa : World) (chosen : Organization.t) :
  (organization ← query (λ w,
     head (filter (λ o, Organization.name o = "Default AI service org 2")
             (organizations w)));
   match organization with
   | Some organization => mret organization
   | None =>
       organization ← new_Organization "Default AI service org 2";
       _commit_object organization
   end) w = (Ok chosen, wa) →
  head (filter (λ o, Organization.name o = "Default AI service org 2")
          (organizations wa)) = Some chosen
  ∧ users wa = users w
  ∧ organization_users wa = organization_users w.
Proof.
  run_repo.
  destruct (head (filter _ (organizations w))) as [found|] eqn:Hfound.
  - by intros [= <- <-].
  - unfold new_Organization, datetime_now, uuid4. run_repo.
    intros Hcommit. apply commit_object_Ok in Hcommit as (-> & -> & _).
    simpl. split; [|done]. by apply first_snoc_None.
Qed.

Lemma get_default_organization_found (w : World)
    (organization : Organization.t) (user : User.t)
    (membership : OrganizationUser.t) :
  head (filter (λ o, Organization.name o = "Default AI service org 2")
          (organizations w)) = Some organization →
  head (filter (λ u, User.first_name u = "Default AI"
                     ∧ User.last_name u = "service user 2") (users w))
  = Some user →
  head (filter (λ m, OrganizationUser.user_id m = User.user_id user)
          (organization_users w)) = Some membership →
  get_default_organization w = (Ok organization, w).
Proof.
  intros Horg Huser Hmember. unfold get_default_organization.
  unfold mbind, Repo_bind, query. rewrite Horg. simpl.
  rewrite (get_default_user_found _ _ Huser). by rewrite Hmember.
Qed.

(** A call that returns leaves a world in which all three of its
    lookups succeed, the first of them on the returned organization. *)
Lemma get_default_organization_Ok (w w' : World) (organization : Organization.t) :
  get_default_organization w = (Ok organization, w') →
  ∃ user membership,
    head (filter (λ o, Organization.name o = "Default AI service org 2")
            (organizations w')) = Some organization
    ∧ head (filter (λ u, User.first_name u = "Default AI"
                         ∧ User.last_name u = "service user 2") (users w'))
      = Some user
    ∧ head (filter (λ m, OrganizationUser.user_id m = User.user_id user)
              (organization_users w')) = Some membership.
Proof.
  unfold get_default_organization. unfold mbind at 1, Repo_bind at 1, query.
  intros Hrun.
  run_step Hrun chosen wa Hchosen.
  apply default_organization_step_Ok in Hchosen as (Hfirst & _ & _).
  run_step Hrun user wb Huser.
  apply get_default_user_Ok in Huser as (Huser & Horgs & Hmembers).
  unfold mbind at 1, Repo_bind at 1, query in Hrun.
  exists user.
  destruct (head (filter _ (organization_users wb))) as [membership|] eqn:Hmember.
  - injection Hrun as <- <-. exists membership.
    by rewrite Horgs.
  - revert Hrun. unfold new_OrganizationUser, datetime_now. run_repo.
    destruct (_commit_object _ _) as [[stored|e] wc] eqn:Hcommit; [|done].
    intros [= <- <-].
    apply commit_object_Ok in Hcommit as (-> & -> & _).
    eexists. simpl. rewrite Horgs. split; [done|]. split; [done|].
    by apply first_snoc_None.
Qed.

(** C2. A second call of [get_default_user] after one that returned
    returns a user with the same [user_id] and leaves every shard as the
    first call left it; the same holds of [get_default_organization] and
    [organization_id]. *)
Theorem get_default_idempotent (w : World) :
  (∀ user w1,
     get_default_user w = (Ok user, w1) →
     ∃ again,
       get_default_user w1 = (Ok again, w1)
       ∧ User.user_id again = User.user_id user)
  ∧ (∀ organization w1,
       get_default_organization w = (Ok organization, w1) →
       ∃ again,
         get_default_organization w1 = (Ok again, w1)
         ∧ Organization.organization_id again
           = Organization.organization_id organization).
Proof.
  split.
  - intros user w1 (Hfirst & _)%get_default_user_Ok.
    exists user. split; [|done]. by apply get_default_user_found.
  - intros organization w1
      (user & membership & Horg & Huser & Hmember)%get_default_organization_Ok.
    exists organization. split; [|done].
    by eapply get_default_organization_found.
Qed.

Lemma get_default_idempotent_witness :
  (∃ user w1 again,
     get_default_user world0 = (Ok user, w1)
     ∧ users w1 = [user]
     ∧ get_default_user w1 = (Ok again, w1)
     ∧ User.user_id again = User.user_id user)
  ∧ (∃ organization w1 again,
       get_default_organization world0 = (Ok organization, w1)
       ∧ organizations w1 = [organization]
       ∧ get_default_organization w1 = (Ok again, w1)
       ∧ Organization.organization_id again
         = Organization.organization_id organization).
Proof.
  destruct (get_default_idempotent world0) as [Huser Horg].
  split.
  - destruct (get_default_user world0) as [[user|e] w1] eqn:Hrun;
      [|discriminate Hrun].
    destruct (Huser user w1 eq_refl) as (again & Hagain & Hid).
    exists user, w1, again. split; [reflexivity|].
    split; [by injection Hrun as <- <-|]. done.
  - destruct (get_default_organization world0) as [[organization|e] w1] eqn:Hrun;
      [|discriminate Hrun].
    destruct (Horg organization w1 eq_refl) as (again & Hagain & Hid).
    exists organization, w1, again. split; [reflexivity|].
    split; [by injection Hrun as <- <-|]. done.
Defined.

(** C4 fails on the code.  In [world_member_elsewhere] the call returns
    the default organization 1 and writes nothing, the lookup by [user_id]
    alone having found the membership in organization 2: no row links the
    default user 7 to the returned organization. *)
Theorem get_default_organization_membership_elsewhere :
  get_default_user world_member_elsewhere
  = (Ok (sample_user 7), world_member_elsewhere)
  ∧ get_default_organization world_member_elsewhere
    = (Ok (sample_organization 1), world_member_elsewhere)
  ∧ ¬ Exists (λ m, OrganizationUser.user_id m = 7
                   ∧ OrganizationUser.organization_id m = 1)
        (organization_users world_member_elsewhere).
Proof.
  split; [reflexivity|]. split; [reflexivity|].
  intros (m & Hm & _ & Horg)%Exists_exists.
  apply list_elem_of_singleton in Hm as ->. discriminate Horg.
Qed.

(** Where the default user has no membership row at all, the call does
    link it to the organization it returns. *)
Lemma get_default_organization_links_new_member (w w' : World)
    (organization : Organization.t) (user : User.t) :
  head (filter (λ u, User.first_name u = "Default AI"
                     ∧ User.last_name u = "service user 2") (users w))
  = Some user →
  Forall (λ m, OrganizationUser.user_id m ≠ User.user_id user)
    (organization_users w) →
  get_default_organization w = (Ok organization, w') →
  Exists (λ m, OrganizationUser.user_id m = User.user_id user
               ∧ OrganizationUser.organization_id m
                 = Organization.organization_id organization)
    (organization_users w').
Proof.
  intros Huser Hnone. unfold get_default_organization.
  unfold mbind at 1, Repo_bind at 1, query. intros Hrun.
  run_step Hrun chosen wa Hchosen.
  apply default_organization_step_Ok in Hchosen as (_ & Husers & Hmembers).
  rewrite <-Husers in Huser. rewrite <-Hmembers in Hnone.
  unfold mbind at 1, Repo_bind at 1 in Hrun.
  rewrite (get_default_user_found _ _ Huser) in Hrun.
  unfold mbind at 1, Repo_bind at 1, query in Hrun.
  rewrite first_None in Hrun by done.
  revert Hrun. unfold new_OrganizationUser, datetime_now. run_repo.
  destruct (_commit_object _ _) as [[stored|e] wc] eqn:Hcommit; [|done].
  intros [= <- <-].
  apply commit_object_Ok in Hcommit as (-> & -> & _). simpl.
  apply Exists_app. right. by left.
Qed.

(** ** ChatRepo: the message log *)

#[export] Instance created_at_desc_trans : Transitive created_at_desc.
Proof. intros a b c. unfold created_at_desc. lia. Qed.

#[export] Instance created_at_desc_total : Total created_at_desc.
Proof. intros a b. unfold created_at_desc. lia. Qed.

Section message_log.
Implicit Types stored : list ChatMessage.t.

(** The rows that the ORDER BY ... DESC LIMIT 40 statement fetches. *)
Local Abbreviation fetched stored :=
  (take 40 (merge_sort created_at_desc stored)).

Lemma fetched_length stored :
  length (reverse (fetched stored)) = (length stored `min` 40)%nat.
Proof.
  rewrite length_reverse, length_take, (Permutation_length (merge_sort_Permutation _ _)).
  lia.
Qed.

Lemma fetched_ascending stored :
  StronglySorted created_at_asc (reverse (fetched stored)).
Proof.
  assert (StronglySorted created_at_desc
            (take 40 (merge_sort created_at_desc stored))) as Hdesc.
  { apply (StronglySorted_app_1_l _ _ (drop 40 (merge_sort created_at_desc stored))).
    rewrite take_drop. apply StronglySorted_merge_sort; apply _. }
  apply StronglySorted_Sorted, Sorted_reverse in Hdesc.
  apply Sorted_StronglySorted; [|exact Hdesc].
  intros a b c. unfold flip, created_at_asc, created_at_desc. lia.
Qed.

Lemma fetched_most_recent stored :
  ∃ older,
    stored ≡ₚ older ++ reverse (fetched stored)
    ∧ ∀ a b, a ∈ older → b ∈ reverse (fetched stored) → created_at_asc a b.
Proof.
  exists (drop 40 (merge_sort created_at_desc stored)). split.
  - rewrite reverse_Permutation, (comm (++)), take_drop.
    by rewrite merge_sort_Permutation.
  - intros a b Ha Hb. rewrite elem_of_reverse in Hb.
    assert (StronglySorted created_at_desc (merge_sort created_at_desc stored))
      as Hdesc by (apply StronglySorted_merge_sort; apply _).
    rewrite <-(take_drop 40 (merge_sort created_at_desc stored)) in Hdesc.
    apply StronglySorted_app in Hdesc as (Hcross & _ & _).
    apply (Hcross b a); done.
Qed.

Lemma created_before_inj stored (a b : ChatMessage.t) :
  StronglySorted created_before stored →
  a ∈ stored → b ∈ stored →
  ChatMessage.created_at a = ChatMessage.created_at b → a = b.
Proof.
  unfold created_before.
  induction 1 as [|x l _ IH Hx]; intros Ha Hb Heq; [by apply elem_of_nil in Ha|].
  rewrite Forall_forall in Hx.
  apply elem_of_cons in Ha as [->|Ha]; apply elem_of_cons in Hb as [->|Hb];
    [done| | |by apply IH].
  - specialize (Hx _ Hb). lia.
  - specialize (Hx _ Ha). lia.
Qed.

Lemma created_before_reverse stored :
  StronglySorted created_before stored →
  StronglySorted created_at_desc (reverse stored).
Proof.
  induction 1 as [|x l _ IH Hx]; [constructor|].
  rewrite reverse_cons. apply StronglySorted_app.
  split; [|split; [done | repeat constructor]].
  intros a b Ha Hb. rewrite elem_of_reverse in Ha.
  apply list_elem_of_singleton in Hb as ->.
  rewrite Forall_forall in Hx. specialize (Hx _ Ha).
  unfold created_before, created_at_desc in *. lia.
Qed.

(** On a log in strictly increasing order of [created_at] the sort is
    the reversal, so what comes back is the tail of the log. *)
Lemma fetched_tail stored :
  StronglySorted created_before stored →
  reverse (fetched stored) = drop (length stored - 40) stored.
Proof.
  intros Hlog.
  assert (merge_sort created_at_desc stored = reverse stored) as ->.
  { apply (StronglySorted_unique_strong created_at_desc).
    - intros a b Ha Hb Hab Hba.
      rewrite merge_sort_Permutation in Ha. rewrite elem_of_reverse in Hb.
      apply (created_before_inj stored); [done..|].
      unfold created_at_desc in *. lia.
    - apply StronglySorted_merge_sort; apply _.
    - by apply created_before_reverse.
    - by rewrite merge_sort_Permutation, reverse_Permutation. }
  by rewrite reverse_take, reverse_involutive, length_reverse.
Qed.
End message_log.

(** An append that returns has stored the returned message at the end of
    the log, stamped with the clock's reading at the call. *)
Lemma create_chat_message_Ok (organization_id chat_id : UUID)
    (type content : string) (message_id owner_user_id : option UUID)
    (arguments : option dict) (w w' : World) (message : ChatMessage.t) :
  create_chat_message organization_id chat_id type content message_id
    owner_user_id arguments w = (Ok message, w') →
  chat_messages w' = chat_messages w ++ [message]
  ∧ ChatMessage.chat_id message = chat_id
  ∧ ChatMessage.created_at message = clock w (ticks w)
  ∧ clock w' = clock w
  ∧ ticks w' = S (ticks w).
Proof.
  unfold create_chat_message.
  destruct message_id; unfold uuid4, datetime_now; run_repo;
    intros Hcommit; by apply commit_object_Ok in Hcommit as (-> & -> & _).
Qed.

Lemma append_messages_Ok (chat_id : UUID) (inputs : list message_input) :
  ∀ (w w' : World) (appended : list ChatMessage.t),
    append_messages chat_id inputs w = (Ok appended, w') →
    chat_messages w' = chat_messages w ++ appended
    ∧ Forall (λ m, ChatMessage.chat_id m = chat_id) appended
    ∧ length appended = length inputs
    ∧ clock w' = clock w
    ∧ ChatMessage.created_at <$> appended
      = clock w <$> seq (ticks w) (length inputs).
Proof.
  induction inputs as [|i inputs IH]; intros w w' appended Hrun.
  - injection Hrun as <- <-. by rewrite app_nil_r.
  - simpl in Hrun. run_step Hrun message w1 Hfirst.
    run_step Hrun messages w2 Hrest.
    injection Hrun as <- <-.
    apply create_chat_message_Ok in Hfirst
      as (Hlog1 & Hchat & Hstamp & Hclock1 & Hticks).
    apply IH in Hrest as (Hlog2 & Hchats & Hlen & Hclock2 & Hstamps).
    rewrite Hlog2, Hlog1, <-app_assoc.
    split; [done|]. split; [by constructor|].
    split; [simpl; congruence|]. split; [congruence|].
    by rewrite fmap_cons, Hstamps, Hstamp, Hclock1, Hticks.
Qed.

(** Readings of a clock that only advances, taken in sequence, stamp the
    log in strictly increasing order. *)
Lemma stamps_created_before (clock : nat → Z) (log : list ChatMessage.t) :
  (∀ i j : nat, (i < j)%nat → clock i < clock j) →
  ∀ start : nat,
    ChatMessage.created_at <$> log = clock <$> seq start (length log) →
    StronglySorted created_before log.
Proof.
  intros Hclock. induction log as [|m log IH]; intros start Hstamps;
    [constructor|].
  simpl in Hstamps. injection Hstamps as Hm Hlog.
  change (ChatMessage.created_at <$> log = clock <$> seq (S start) (length log))
    in Hlog.
  constructor; [by apply (IH (S start))|].
  apply Forall_forall. intros m' Hm'.
  apply (list_elem_of_fmap_2 ChatMessage.created_at) in Hm'.
  rewrite Hlog in Hm'.
  apply list_elem_of_fmap in Hm' as (j & Hstamp & Hj).
  apply elem_of_seq in Hj. unfold created_before. rewrite Hm, Hstamp.
  apply Hclock. lia.
Qed.

(** C1. After [N] messages have been appended to a chat by
    [create_chat_message], [get_chat_messages] returns [min N 40] of them,
    in ascending order of [created_at], and no message left out is
    younger than a returned one; when the clock advanced between the
    appends, these are the last [min N 40] appended, in the order of
    their appending. *)
Theorem get_chat_messages_most_recent_40 (w w' : World) (chat_id : UUID)
    (inputs : list message_input) (appended : list ChatMessage.t) :
  Forall (λ m, ChatMessage.chat_id m ≠ chat_id) (chat_messages w) →
  append_messages chat_id inputs w = (Ok appended, w') →
  ∃ returned,
    get_chat_messages chat_id w' = (Ok returned, w')
    ∧ length returned = (length inputs `min` 40)%nat
    ∧ StronglySorted created_at_asc returned
    ∧ (∃ older,
         appended ≡ₚ older ++ returned
         ∧ ∀ a b, a ∈ older → b ∈ returned → created_at_asc a b)
    ∧ ((∀ i j : nat, (i < j)%nat → clock w i < clock w j) →
       returned = drop (length inputs - 40) appended).
Proof.
  intros Hfresh Hrun.
  apply append_messages_Ok in Hrun as (Hlog & Hchats & Hlen & _ & Hstamps).
  assert (filter (λ m, ChatMessage.chat_id m = chat_id) (chat_messages w')
          = appended) as Hstored.
  { rewrite Hlog, filter_app.
    replace (filter _ (chat_messages w)) with (@nil ChatMessage.t).
    - clear -Hchats. induction Hchats as [|m log Hm _ IH]; [done|].
      rewrite filter_cons_True by done. simpl in *. by rewrite IH.
    - symmetry. clear -Hfresh. induction Hfresh; [done|].
      by rewrite filter_cons_False. }
  unfold get_chat_messages. run_repo. rewrite Hstored.
  eexists. split; [done|].
  split; [rewrite <-Hlen; apply fetched_length|].
  split; [apply fetched_ascending|].
  split; [apply fetched_most_recent|].
  intros Hclock. rewrite <-Hlen. apply fetched_tail.
  apply (stamps_created_before (clock w) appended Hclock (ticks w)).
  by rewrite Hlen.
Qed.

Lemma get_chat_messages_most_recent_40_witness :
  ∃ appended w' returned,
    append_messages 9 (replicate 45 sample_input) world0 = (Ok appended, w')
    ∧ get_chat_messages 9 w' = (Ok returned, w')
    ∧ length returned = 40%nat
    ∧ returned = drop 5 appended.
Proof.
  destruct (append_messages 9 (replicate 45 sample_input) world0)
    as [[appended|e] w'] eqn:Hrun; [|by vm_compute in Hrun].
  destruct (get_chat_messages_most_recent_40 world0 w' 9
              (replicate 45 sample_input) appended (Forall_nil_2 _) Hrun)
    as (returned & Hget & Hlength & _ & _ & Htail).
  exists appended, w', returned.
  split; [reflexivity|]. split; [exact Hget|]. split; [exact Hlength|].
  apply Htail. intros i j Hij. simpl. lia.
Defined.

(** The scenario of the specification: 45 appends, then the 40 messages
    stamped 5 to 44 come back in that order. *)
Example get_chat_messages_45 :
  ∃ appended w' returned,
    append_messages 9 (replicate 45 sample_input) world0 = (Ok appended, w')
    ∧ get_chat_messages 9 w' = (Ok returned, w')
    ∧ ChatMessage.created_at <$> returned = seqZ 5 40.
Proof. vm_compute. do 3 eexists. repeat split. Qed.

(** * Further properties *)

(** ** ResourceRepo: what an update of the status touches *)



(** An update that returns leaves every resource of another
    [resource_id] as it was: [get_resource] on such an identifier
    returns what it returned before. *)
Theorem update_resource_status_frame (w w' : World)
    (resource_id other_id : UUID) (status : string) (updated : Resource.t) :
  update_resource_status resource_id status w = (Ok updated, w') →
  other_id ≠ resource_id →
  fst (get_resource other_id w') = fst (get_resource other_id w).
Proof.
  intros Hrun Hother.
  apply update_resource_status_Ok in Hrun
    as (loaded & _ & Hloaded & -> & ->).
  apply first_Some in Hloaded as [_ Hid].
  unfold get_resource, mbind, Repo_bind, query, resources_updated.
  change (resources (set_rows ?l w)) with l.
  rewrite (updated_frame primary_key).
  - unfold load_resources, mret, Repo_ret, raise. by case_decide.
  - intros r [= _ Hr]. simpl in *. congruence.
Qed.

Lemma update_resource_status_frame_witness :
  fst (get_resource 20
         (snd (update_resource_status 21 "available" world_collection)))
  = Ok (Some (sample_resource 1 20 30)).
Proof.
  rewrite (update_resource_status_frame world_collection
             (snd (update_resource_status 21 "available" world_collection))
             21 20 "available"
             (Resource.with_status "available" (sample_resource 1 21 31))
             eq_refl); [reflexivity | lia].
Defined.

(** ** The other updates *)

(** When no row carries the identifier, [update_resource_ai_summary],
    [update_meeting_transcriptions], [update_website_parsed_urls] and
    [update_chat_name] each raise the [AttributeError] of the assignment
    on [None] and leave the world as it was. *)
Theorem update_absent_raises_AttributeError (w : World)
    (resource_id meeting_id website_id chat_id : UUID) (text : string) :
  (Forall (λ r, Resource.resource_id r ≠ resource_id) (resources w) →
   update_resource_ai_summary resource_id text w = (Raise AttributeError, w))
  ∧ (Forall (λ m, Meeting.meeting_id m ≠ meeting_id) (meetings w) →
     update_meeting_transcriptions meeting_id text w = (Raise AttributeError, w))
  ∧ (Forall (λ s, Website.website_id s ≠ website_id) (websites w) →
     update_website_parsed_urls website_id text w = (Raise AttributeError, w))
  ∧ (Forall (λ c, Chat.chat_id c ≠ chat_id) (chats w) →
     update_chat_name chat_id text w = (Raise AttributeError, w)).
Proof.
  split.
  - intros Habsent.
    unfold update_resource_ai_summary, mbind, Repo_bind, query, raise.
    rewrite select_none by done.
    by rewrite load_resources_members by constructor.
  - unfold update_meeting_transcriptions, update_website_parsed_urls,
      update_chat_name.
    run_repo. repeat split; intros Habsent; by rewrite first_None.
Qed.

Lemma update_absent_raises_AttributeError_witness :
  update_resource_ai_summary 99 "text" world_entities
  = (Raise AttributeError, world_entities)
  ∧ update_meeting_transcriptions 99 "text" world_entities
    = (Raise AttributeError, world_entities)
  ∧ update_website_parsed_urls 99 "text" world_entities
    = (Raise AttributeError, world_entities)
  ∧ update_chat_name 99 "text" world_entities
    = (Raise AttributeError, world_entities).
Proof.
  destruct (update_absent_raises_AttributeError world_entities 99 99 99 99 "text")
    as (Hr & Hm & Hs & Hc).
  split; [apply Hr | split; [apply Hm | split; [apply Hs | apply Hc]]];
    simpl; repeat constructor; simpl; lia.
Defined.





(** ** Primary keys *)



(** ** Creating, then looking up *)

(** When the identity drawn for the chat is not taken in the
    organization, [create_chat] returns a chat with the given columns and
    [get_chat] on its identity and organization returns that chat. *)
Theorem create_chat_then_get_chat (w : World) (organization_id user_id : UUID)
    (type name : string) :
  [organization_id; entropy w (draws w)] ∉ (primary_key <$> chats w) →
  ∃ chat w',
    create_chat organization_id user_id type name w = (Ok chat, w')
    ∧ Chat.chat_id chat = entropy w (draws w)
    ∧ Chat.organization_id chat = organization_id
    ∧ Chat.owner_user_id chat = user_id
    ∧ Chat.type chat = type
    ∧ Chat.name chat = name
    ∧ get_chat (Chat.chat_id chat) organization_id w' = (Ok (Some chat), w').
Proof.
  intros Hfresh. unfold create_chat, get_chat, uuid4, datetime_now. run_repo.
  rewrite commit_object_fresh by done.
  do 2 eexists. split; [done|]. simpl. do 5 (split; [done|]).
  rewrite first_snoc_None; [done| |done].
  apply first_None, Forall_forall. intros c Hc [Hid Horg].
  apply Hfresh, list_elem_of_fmap. exists c. split; [|done].
  simpl. by rewrite Hid, Horg.
Qed.

Lemma create_chat_then_get_chat_witness :
  ∃ chat w',
    create_chat 1 7 "assistant" "third" world_entities = (Ok chat, w')
    ∧ get_chat 1000 1 w' = (Ok (Some chat), w')
    ∧ Chat.name chat = "third".
Proof.
  destruct (create_chat_then_get_chat world_entities 1 7 "assistant" "third")
    as (chat & w' & Hcreate & Hid & _ & _ & _ & Hname & Hget).
  - simpl. intros Hin. repeat (apply elem_of_cons in Hin as [Hin|Hin];
      [discriminate Hin|]). by apply elem_of_nil in Hin.
  - exists chat, w'. split; [exact Hcreate|].
    split; [|exact Hname]. rewrite Hid in Hget. exact Hget.
Defined.

(** When no stored resource carries the identity drawn,
    [create_resource] returns and [get_resource] on the returned
    [resource_id] returns the created resource, whose identity of the
    concrete entity is the one the caller allocated. *)
Theorem create_resource_then_get_resource (w : World) (organization_id : UUID)
    (type : ResourceType) (source_entity_id : UUID) :
  Forall (λ r, Resource.resource_id r ≠ entropy w (draws w)) (resources w) →
  ∃ resource w',
    create_resource organization_id type source_entity_id w = (Ok resource, w')
    ∧ Resource.source_entity_id resource = source_entity_id
    ∧ Resource.source_entity_type resource = type
    ∧ Resource.organization_id resource = organization_id
    ∧ get_resource (Resource.resource_id resource) w'
      = (Ok (Some resource), w').
Proof.
  intros Hnew. unfold create_resource, new_Resource, uuid4, datetime_now.
  run_repo.
  rewrite commit_object_fresh.
  - do 2 eexists. split; [done|]. simpl. do 3 (split; [done|]).
    rewrite get_resource_members; simpl;
      rewrite filter_app, select_none, filter_cons_True by done; [done|].
    repeat constructor.
  - simpl. rewrite Forall_forall in Hnew.
    intros (r & [= _ Hid] & Hr)%list_elem_of_fmap. by apply (Hnew r).
Qed.

Lemma create_resource_then_get_resource_witness :
  ∃ resource w',
    create_resource 1 file 42 world_entities = (Ok resource, w')
    ∧ get_resource 1000 w' = (Ok (Some resource), w')
    ∧ Resource.source_entity_id resource = 42.
Proof.
  destruct (create_resource_then_get_resource world_entities 1 file 42)
    as (resource & w' & Hcreate & Hsource & _ & _ & Hget).
  - simpl. repeat constructor; simpl; lia.
  - exists resource, w'. split; [exact Hcreate|]. split; [|exact Hsource].
    assert (Resource.resource_id resource = 1000) as <-; [|exact Hget].
    vm_compute in Hcreate. by injection Hcreate as <- _.
Defined.

(** ** One concrete entity per resource and organization *)



(** When no stored file carries the identity, the file created for a
    resource, and the file created for a recording, is the file that
    [get_file] returns for that identity; the file of a recording has the
    recording's [file_id] as its [resource_id] too. *)
Theorem create_file_then_get_file (w : World) (organization : Organization.t)
    (resource : Resource.t) (meeting_recording : MeetingRecording.t)
    (file_name mime_type : string) (user : User.t) :
  (Forall (λ f, File.file_id f ≠ Resource.source_entity_id resource) (files w) →
   ∃ f w',
     create_file_for_resource organization resource file_name mime_type user w
     = (Ok f, w')
     ∧ get_file (Resource.source_entity_id resource) w' = (Ok (Some f), w'))
  ∧ (Forall (λ f, File.file_id f ≠ MeetingRecording.file_id meeting_recording)
       (files w) →
     ∃ f w',
       create_file_for_meeting_recording organization meeting_recording
         file_name mime_type user w = (Ok f, w')
       ∧ File.file_id f = MeetingRecording.file_id meeting_recording
       ∧ File.resource_id f = MeetingRecording.file_id meeting_recording
       ∧ get_file (MeetingRecording.file_id meeting_recording) w'
         = (Ok (Some f), w')).
Proof.
  unfold create_file_for_resource, create_file_for_meeting_recording, get_file,
    datetime_now.
  run_repo. split; intros Hnew.
  - rewrite commit_object_fresh.
    + do 2 eexists. split; [done|]. simpl.
      rewrite first_snoc_None; [done| |done]. by apply first_None.
    + simpl. rewrite Forall_forall in Hnew.
      intros (f & [= _ Hid] & Hf)%list_elem_of_fmap. by apply (Hnew f).
  - rewrite commit_object_fresh.
    + do 2 eexists. split; [done|]. simpl. do 2 (split; [done|]).
      rewrite first_snoc_None; [done| |done]. by apply first_None.
    + simpl. rewrite Forall_forall in Hnew.
      intros (f & [= _ Hid] & Hf)%list_elem_of_fmap. by apply (Hnew f).
Qed.

Lemma create_file_then_get_file_witness :
  (∃ f w',
     create_file_for_resource (sample_organization 1) (sample_resource 1 22 32)
       "notes.txt" "text/plain" (sample_user 7) world_collection = (Ok f, w')
     ∧ get_file 32 w' = (Ok (Some f), w'))
  ∧ (∃ f w',
       create_file_for_meeting_recording (sample_organization 1)
         (MeetingRecording.mk None 0 1 40 60 None 61 "audio" "mixed" None None)
         "call.mp3" "audio/mpeg" (sample_user 7) world_collection = (Ok f, w')
       ∧ File.resource_id f = 61
       ∧ get_file 61 w' = (Ok (Some f), w')).
Proof.
  destruct (create_file_then_get_file world_collection (sample_organization 1)
              (sample_resource 1 22 32)
              (MeetingRecording.mk None 0 1 40 60 None 61 "audio" "mixed" None None)
              "notes.txt" "text/plain" (sample_user 7)) as (Hfile & _).
  destruct (create_file_then_get_file world_collection (sample_organization 1)
              (sample_resource 1 22 32)
              (MeetingRecording.mk None 0 1 40 60 None 61 "audio" "mixed" None None)
              "call.mp3" "audio/mpeg" (sample_user 7)) as (_ & Hrecording).
  split.
  - destruct Hfile as (f & w' & Hcreate & Hget); [constructor|].
    exists f, w'. split; [exact Hcreate | exact Hget].
  - destruct Hrecording as (f & w' & Hcreate & _ & Hresource & Hget);
      [constructor|].
    exists f, w'. split; [exact Hcreate|]. split; [exact Hresource | exact Hget].
Defined.

(** ** CollectionRepo: association rows *)

(** An association that [create_collection_resource] returns is, after
    the call, among the rows of its collection, which are that row and
    the rows fetched before; the rows of every other collection are as
    before; and a second call with the same three identities raises
    [IntegrityError], storing nothing. *)
Theorem create_collection_resource_then_get (w w' : World)
    (collection_id organization_id resource_id : UUID)
    (row : CollectionResource.t) :
  create_collection_resource collection_id organization_id resource_id w
  = (Ok row, w') →
  CollectionResource.resource_id row = resource_id
  ∧ (∃ before after,
       get_collection_resources collection_id w = (Ok before, w)
       ∧ get_collection_resources collection_id w' = (Ok after, w')
       ∧ after ≡ₚ row :: before)
  ∧ (∀ other_id,
       other_id ≠ collection_id →
       fst (get_collection_resources other_id w')
       = fst (get_collection_resources other_id w))
  ∧ ∃ w'',
      create_collection_resource collection_id organization_id resource_id w'
      = (Raise IntegrityError, w'')
      ∧ collection_resources w'' = collection_resources w'.
Proof.
  unfold create_collection_resource, get_collection_resources, datetime_now.
  run_repo. intros Hcommit.
  apply commit_object_Ok in Hcommit as (-> & -> & _). simpl.
  split; [done|]. split; [|split].
  - do 2 eexists. split; [done|]. split; [done|].
    rewrite filter_app, filter_cons_True, filter_nil by done.
    by rewrite (comm (++)).
  - intros other_id Hother.
    by rewrite filter_app, filter_cons_False, filter_nil, app_nil_r.
  - eexists. rewrite commit_object_taken; [done|].
    simpl. rewrite fmap_app. apply elem_of_app. right. by left.
Qed.

Lemma create_collection_resource_then_get_witness :
  ∃ row w' after,
    create_collection_resource 50 1 22 world_collection = (Ok row, w')
    ∧ get_collection_resources 50 w' = (Ok after, w')
    ∧ after ≡ₚ [row; sample_association 1 50 20; sample_association 1 50 21].
Proof.
  destruct (create_collection_resource 50 1 22 world_collection)
    as [[row|e] w'] eqn:Hcreate; [|by vm_compute in Hcreate].
  destruct (create_collection_resource_then_get world_collection w' 50 1 22 row
              Hcreate) as (_ & (before & after & Hbefore & Hafter & Hperm) & _).
  exists row, w', after. split; [reflexivity|]. split; [exact Hafter|].
  injection Hbefore as <-. exact Hperm.
Defined.

(** The first association of a collection makes
    [get_resources_by_collection_id] return: where their statuses name
    members of [ResourceStatus], it returns the stored resources of the
    associated [resource_id], which nothing has checked to exist, so none
    when there is none. *)
Theorem first_association_resolves (w w' : World)
    (collection_id organization_id resource_id : UUID)
    (row : CollectionResource.t) :
  Forall (λ c, CollectionResource.collection_id c ≠ collection_id)
    (collection_resources w) →
  create_collection_resource collection_id organization_id resource_id w
  = (Ok row, w') →
  (Forall (λ r, is_ResourceStatus (Resource.status r))
     (filter (λ r, Resource.resource_id r = resource_id) (resources w)) →
   get_resources_by_collection_id collection_id w'
   = (Ok (filter (λ r, Resource.resource_id r = resource_id) (resources w)),
      w'))
  ∧ (Forall (λ r, Resource.resource_id r ≠ resource_id) (resources w) →
     get_resources_by_collection_id collection_id w' = (Ok [], w')).
Proof.
  intros Hnone.
  unfold create_collection_resource, get_resources_by_collection_id,
    get_collection_resources, datetime_now.
  run_repo. intros Hcommit.
  apply commit_object_Ok in Hcommit as (-> & -> & _). simpl.
  rewrite filter_app, filter_cons_True, filter_nil by done.
  rewrite (select_none _ (collection_resources w)) by done. simpl. split.
  - intros Hmembers. by rewrite load_resources_members.
  - intros Habsent. rewrite select_none by done.
    by rewrite load_resources_members by constructor.
Qed.

Lemma first_association_resolves_witness :
  ∃ row w',
    create_collection_resource 51 1 21 world_collection = (Ok row, w')
    ∧ get_resources_by_collection_id 51 w' = (Ok [sample_resource 1 21 31], w').
Proof.
  destruct (create_collection_resource 51 1 21 world_collection)
    as [[row|e] w'] eqn:Hcreate; [|by vm_compute in Hcreate].
  destruct (first_association_resolves world_collection w' 51 1 21 row)
    as (Hget & _); [simpl; repeat constructor; simpl; lia | exact Hcreate |].
  exists row, w'. split; [reflexivity|].
  apply Hget. simpl. repeat constructor.
Defined.

(** ** ChatRepo: the log is append-only *)

(** [create_chat_message] with the [message_id] of a stored message of
    the same organization and chat raises [IntegrityError]; the stored
    messages are as before. *)
Theorem create_chat_message_never_overwrites (w : World)
    (organization_id chat_id message_id : UUID) (type content : string)
    (owner_user_id : option UUID) (arguments : option dict) :
  Exists (λ m, ChatMessage.organization_id m = organization_id
               ∧ ChatMessage.chat_id m = chat_id
               ∧ ChatMessage.message_id m = message_id) (chat_messages w) →
  ∃ w',
    create_chat_message organization_id chat_id type content (Some message_id)
      owner_user_id arguments w = (Raise IntegrityError, w')
    ∧ chat_messages w' = chat_messages w.
Proof.
  intros (m & Hm & Horg & Hchat & Hid)%Exists_exists.
  unfold create_chat_message, datetime_now. run_repo.
  eexists. rewrite commit_object_taken; [done|].
  simpl. apply list_elem_of_fmap. exists m. split; [|done].
  simpl. by rewrite Horg, Hchat, Hid.
Qed.

Lemma create_chat_message_never_overwrites_witness :
  ∃ w1 w2,
    snd (create_chat_message 1 9 "user" "hello" (Some 77) None None world0) = w1
    ∧ create_chat_message 1 9 "user" "again" (Some 77) None None w1
      = (Raise IntegrityError, w2)
    ∧ chat_messages w2 = chat_messages w1.
Proof.
  destruct (create_chat_message_never_overwrites
              (snd (create_chat_message 1 9 "user" "hello" (Some 77) None None
                      world0))
              1 9 77 "user" "again" None None) as (w2 & Hsecond & Hlog).
  - simpl. left. done.
  - eexists. exists w2. split; [reflexivity|].
    split; [exact Hsecond | exact Hlog].
Defined.

(** In every state of the chat shard [get_chat_messages] returns, writes
    nothing, and returns at most 40 messages, each a stored message of
    the chat asked for; when the chat has at most 40 messages it returns
    them all. *)
Theorem get_chat_messages_bounds (w : World) (chat_id : UUID) :
  ∃ returned,
    get_chat_messages chat_id w = (Ok returned, w)
    ∧ (length returned ≤ 40)%nat
    ∧ Forall (λ m, ChatMessage.chat_id m = chat_id ∧ m ∈ chat_messages w)
        returned
    ∧ ((length (filter (λ m, ChatMessage.chat_id m = chat_id) (chat_messages w))
        ≤ 40)%nat →
       returned
       ≡ₚ filter (λ m, ChatMessage.chat_id m = chat_id) (chat_messages w)).
Proof.
  unfold get_chat_messages. run_repo. eexists. split; [done|].
  split; [|split].
  - rewrite length_reverse, length_take. lia.
  - apply Forall_forall. intros m Hm.
    rewrite elem_of_reverse in Hm. apply elem_of_take in Hm as (i & Hm & _).
    apply list_elem_of_lookup_2 in Hm.
    rewrite merge_sort_Permutation in Hm.
    by apply list_elem_of_filter in Hm.
  - intros Hfew. rewrite reverse_Permutation, take_ge.
    + apply merge_sort_Permutation.
    + by rewrite (Permutation_length (merge_sort_Permutation _ _)).
Qed.

Lemma get_chat_messages_bounds_witness :
  ∃ w returned,
    snd (append_messages 9 (replicate 3 sample_input) world0) = w
    ∧ get_chat_messages 9 w = (Ok returned, w)
    ∧ returned ≡ₚ filter (λ m, ChatMessage.chat_id m = 9) (chat_messages w).
Proof.
  destruct (get_chat_messages_bounds
              (snd (append_messages 9 (replicate 3 sample_input) world0)) 9)
    as (returned & Hget & _ & _ & Hall).
  eexists. exists returned. split; [reflexivity|]. split; [exact Hget|].
  apply Hall. vm_compute. lia.
Defined.

(** ** The commit primitive on the remaining tables *)

Section shard_commit.
Context `{ShardTable T}.

Lemma shard_commit_object_fresh (obj : T) (s : Shards) :
  shard_primary_key obj ∉ (shard_primary_key <$> shard_rows s) →
  shard_commit_object obj s
  = (Ok obj, set_shard_rows (shard_rows s ++ [obj]) s).
Proof.
  intros Hfresh. unfold shard_commit_object.
  rewrite decide_False, shard_rows_set_rows by done.
  rewrite first_snoc_None; [done| |done].
  apply first_None, Forall_forall. intros r Hr Hkey.
  apply Hfresh, list_elem_of_fmap. eauto.
Qed.

Lemma shard_commit_object_taken (obj : T) (s : Shards) :
  shard_primary_key obj ∈ (shard_primary_key <$> shard_rows s) →
  shard_commit_object obj s = (Raise IntegrityError, s).
Proof. intros Htaken. unfold shard_commit_object. by rewrite decide_True. Qed.

Lemma shard_commit_object_Ok (obj stored : T) (s s' : Shards) :
  shard_commit_object obj s = (Ok stored, s') →
  stored = obj ∧ s' = set_shard_rows (shard_rows s ++ [obj]) s
  ∧ shard_primary_key obj ∉ (shard_primary_key <$> shard_rows s).
Proof.
  destruct (decide (shard_primary_key obj ∈ (shard_primary_key <$> shard_rows s)))
    as [Hin|Hout].
  - by rewrite shard_commit_object_taken.
  - rewrite shard_commit_object_fresh by done. by intros [= <- <-].
Qed.
End shard_commit.

Ltac run_shards :=
  unfold mbind, ShardRepo_bind, mret, ShardRepo_ret, shard_query, shard_raise,
    in_core, datetime_now, uuid4 in *;
  simpl in *.

(** ** ChatRepo: the resources and collections of a chat *)

(** A row that [add_resource_to_chat] returns is, after the call, among
    the rows [get_chat_resources] fetches for the chat, which are that
    row and the rows fetched before, and it is the one row there of its
    organization, chat and resource; a second call with the same
    identities raises [IntegrityError] and stores nothing.  The same
    holds of [add_collection_to_chat] and [get_chat_collections]. *)
Theorem add_to_chat_then_get (s : Shards) (organization_id chat_id id : UUID) :
  (∀ row s',
     add_resource_to_chat organization_id chat_id id s = (Ok row, s') →
     (∃ before after,
        get_chat_resources chat_id s = (Ok before, s)
        ∧ get_chat_resources chat_id s' = (Ok after, s')
        ∧ after ≡ₚ row :: before
        ∧ filter (λ r, ChatResource.organization_id r = organization_id
                       ∧ ChatResource.resource_id r = id) after = [row])
     ∧ ∃ s'',
         add_resource_to_chat organization_id chat_id id s'
         = (Raise IntegrityError, s'')
         ∧ chat_resources s'' = chat_resources s')
  ∧ (∀ row s',
       add_collection_to_chat organization_id chat_id id s = (Ok row, s') →
       (∃ before after,
          get_chat_collections chat_id s = (Ok before, s)
          ∧ get_chat_collections chat_id s' = (Ok after, s')
          ∧ after ≡ₚ row :: before
          ∧ filter (λ c, ChatCollection.organization_id c = organization_id
                         ∧ ChatCollection.collection_id c = id) after = [row])
       ∧ ∃ s'',
           add_collection_to_chat organization_id chat_id id s'
           = (Raise IntegrityError, s'')
           ∧ chat_collections s'' = chat_collections s').
Proof.
  unfold add_resource_to_chat, add_collection_to_chat, get_chat_resources,
    get_chat_collections.
  run_shards. split; intros row s' Hcommit;
    apply shard_commit_object_Ok in Hcommit as (-> & -> & Hfresh); simpl in *.
  - split.
    + do 2 eexists. split; [done|]. split; [done|].
      rewrite filter_app, filter_cons_True, filter_nil by done.
      split; [by rewrite (comm (++))|].
      rewrite filter_app, filter_cons_True, filter_nil by done.
      replace (filter _ (filter _ (chat_resources s)))
        with (@nil ChatResource.t); [done|].
      symmetry. apply select_none, Forall_forall.
      intros r [Hchat Hr]%list_elem_of_filter [Horg Hid].
      apply Hfresh, list_elem_of_fmap. exists r. split; [|done].
      simpl. by rewrite Horg, Hchat, Hid.
    + eexists. rewrite shard_commit_object_taken; [done|].
      simpl. rewrite fmap_app. apply elem_of_app. right. by left.
  - split.
    + do 2 eexists. split; [done|]. split; [done|].
      rewrite filter_app, filter_cons_True, filter_nil by done.
      split; [by rewrite (comm (++))|].
      rewrite filter_app, filter_cons_True, filter_nil by done.
      replace (filter _ (filter _ (chat_collections s)))
        with (@nil ChatCollection.t); [done|].
      symmetry. apply select_none, Forall_forall.
      intros r [Hchat Hr]%list_elem_of_filter [Horg Hid].
      apply Hfresh, list_elem_of_fmap. exists r. split; [|done].
      simpl. by rewrite Horg, Hchat, Hid.
    + eexists. rewrite shard_commit_object_taken; [done|].
      simpl. rewrite fmap_app. apply elem_of_app. right. by left.
Qed.

Lemma add_to_chat_then_get_witness :
  (∃ row s' after,
     add_resource_to_chat 1 5 20 shards0 = (Ok row, s')
     ∧ get_chat_resources 5 s' = (Ok after, s')
     ∧ after ≡ₚ [row])
  ∧ (∃ row s' after,
       add_collection_to_chat 1 5 50 shards0 = (Ok row, s')
       ∧ get_chat_collections 5 s' = (Ok after, s')
       ∧ after ≡ₚ [row]).
Proof.
  split.
  - destruct (add_to_chat_then_get shards0 1 5 20) as (Hresource & _).
    destruct (add_resource_to_chat 1 5 20 shards0) as [[row|e] s'] eqn:Hadd;
      [|by vm_compute in Hadd].
    destruct (Hresource row s' eq_refl)
      as ((before & after & Hbefore & Hafter & Hperm & _) & _).
    exists row, s', after. split; [reflexivity|]. split; [exact Hafter|].
    injection Hbefore as <-. exact Hperm.
  - destruct (add_to_chat_then_get shards0 1 5 50) as (_ & Hcollection).
    destruct (add_collection_to_chat 1 5 50 shards0) as [[row|e] s'] eqn:Hadd;
      [|by vm_compute in Hadd].
    destruct (Hcollection row s' eq_refl)
      as ((before & after & Hbefore & Hafter & Hperm & _) & _).
    exists row, s', after. split; [reflexivity|]. split; [exact Hafter|].
    injection Hbefore as <-. exact Hperm.
Defined.

(** ** CollectionRepo: the name of a new collection *)

(** A collection that [create_collection] returns keeps a name that was
    given and is not empty; without a name, or with the empty name, it is
    named ["Collection "] followed by a drawn identity, which is the draw
    before the one that becomes its [collection_id]. *)
Theorem create_collection_name (s s' : Shards) (organization_id : UUID)
    (name : option string) (collection : Collection.t) :
  create_collection organization_id name s = (Ok collection, s') →
  Collection.organization_id collection = organization_id
  ∧ match name with
    | Some (String a rest) =>
        Collection.name collection = String a rest
        ∧ Collection.collection_id collection
          = entropy (core s) (draws (core s))
    | Some "" | None =>
        Collection.name collection
        = "Collection " +:+ str_uuid (entropy (core s) (draws (core s)))
        ∧ Collection.collection_id collection
          = entropy (core s) (S (draws (core s)))
    end.
Proof.
  unfold create_collection. destruct name as [[|a rest]|]; run_shards;
    intros Hcommit; by apply shard_commit_object_Ok in Hcommit as (-> & _).
Qed.

Lemma create_collection_name_witness :
  (∃ collection s',
     create_collection 1 (Some "") shards0 = (Ok collection, s')
     ∧ Collection.name collection
       = "Collection 00000000-0000-0000-0000-0000000003e8"
     ∧ Collection.collection_id collection = 1001)
  ∧ (∃ collection s',
       create_collection 1 (Some "Reports") shards0 = (Ok collection, s')
       ∧ Collection.name collection = "Reports"
       ∧ Collection.collection_id collection = 1000).
Proof.
  split.
  - destruct (create_collection 1 (Some "") shards0)
      as [[collection|e] s'] eqn:Hcreate; [|by vm_compute in Hcreate].
    destruct (create_collection_name shards0 s' 1 (Some "") collection Hcreate)
      as (_ & Hname & Hid).
    exists collection, s'. split; [reflexivity|].
    split; [exact Hname | exact Hid].
  - destruct (create_collection 1 (Some "Reports") shards0)
      as [[collection|e] s'] eqn:Hcreate; [|by vm_compute in Hcreate].
    destruct (create_collection_name shards0 s' 1 (Some "Reports") collection
                Hcreate) as (_ & Hname & Hid).
    exists collection, s'. split; [reflexivity|].
    split; [exact Hname | exact Hid].
Defined.

(** ** MeetingRepo: the recording of a meeting *)

(** For a meeting without a recording, when the identity drawn is free,
    [create_meeting_mixed_recording] returns an audio recording of
    subtype mixed, without participant and without transcriptions, with
    the given file, and [get_meeting_recording_by_meeting_id] returns
    it. *)
Theorem create_meeting_mixed_recording_then_get (s : Shards)
    (organization_id meeting_id file_id : UUID) :
  Forall (λ r, MeetingRecording.meeting_id r ≠ meeting_id)
    (meeting_recordings s) →
  ∃ recording s',
    create_meeting_mixed_recording organization_id meeting_id file_id s
    = (Ok recording, s')
    ∧ MeetingRecording.type recording = "audio"
    ∧ MeetingRecording.subtype recording = "mixed"
    ∧ MeetingRecording.file_id recording = file_id
    ∧ MeetingRecording.participant_id recording = None
    ∧ MeetingRecording.transcriptions recording = None
    ∧ get_meeting_recording_by_meeting_id meeting_id s'
      = (Ok (Some recording), s').
Proof.
  intros Hnone.
  unfold create_meeting_mixed_recording, get_meeting_recording_by_meeting_id.
  run_shards. rewrite shard_commit_object_fresh.
  - do 2 eexists. split; [done|]. simpl. do 5 (split; [done|]).
    rewrite first_snoc_None; [done| |done]. by apply first_None.
  - simpl. rewrite Forall_forall in Hnone.
    intros (r & [= _ Hid _] & Hr)%list_elem_of_fmap. by apply (Hnone r).
Qed.

Lemma create_meeting_mixed_recording_then_get_witness :
  ∃ recording s',
    create_meeting_mixed_recording 1 40 61 shards0 = (Ok recording, s')
    ∧ MeetingRecording.subtype recording = "mixed"
    ∧ get_meeting_recording_by_meeting_id 40 s' = (Ok (Some recording), s').
Proof.
  destruct (create_meeting_mixed_recording_then_get shards0 1 40 61)
    as (recording & s' & Hcreate & _ & Hsubtype & _ & _ & _ & Hget);
    [constructor|].
  exists recording, s'. split; [exact Hcreate|].
  split; [exact Hsubtype | exact Hget].
Defined.




(** ** models.py: the names of tables *)

Lemma is_upper_range (c : Ascii.ascii) :
  is_upper c = true ↔ (65 ≤ Ascii.nat_of_ascii c ≤ 90)%nat.
Proof.
  unfold is_upper. rewrite andb_true_iff, !Nat.leb_le. done.
Qed.

Lemma to_lower_upper (c : Ascii.ascii) :
  is_upper c = true →
  Ascii.nat_of_ascii (to_lower c) = (Ascii.nat_of_ascii c + 32)%nat.
Proof.
  intros Hc. unfold to_lower. rewrite Hc.
  apply is_upper_range in Hc. apply Ascii.nat_ascii_embedding. lia.
Qed.

Lemma to_lower_not_upper (c : Ascii.ascii) :
  is_upper c = false → to_lower c = c.
Proof. intros Hc. unfold to_lower. by rewrite Hc. Qed.

Lemma nat_of_ascii_inj (c1 c2 : Ascii.ascii) :
  Ascii.nat_of_ascii c1 = Ascii.nat_of_ascii c2 → c1 = c2.
Proof.
  intros Heq.
  by rewrite <-(Ascii.ascii_nat_embedding c1), <-(Ascii.ascii_nat_embedding c2),
    Heq.
Qed.

(** Where letters only are lowered, the lowered character tells the
    character, given whether it was a capital. *)
Lemma to_lower_inj (c1 c2 : Ascii.ascii) :
  is_upper c1 = is_upper c2 → to_lower c1 = to_lower c2 → c1 = c2.
Proof.
  intros Hcase Hlow. destruct (is_upper c1) eqn:H1; symmetry in Hcase.
  - apply nat_of_ascii_inj.
    apply (f_equal Ascii.nat_of_ascii) in Hlow.
    rewrite !to_lower_upper in Hlow by done. lia.
  - by rewrite !to_lower_not_upper in Hlow.
Qed.

Lemma to_lower_letter_not_underscore (c : Ascii.ascii) :
  is_letter c = true → to_lower c ≠ underscore.
Proof.
  intros Hc Heq. apply (f_equal Ascii.nat_of_ascii) in Heq.
  change (Ascii.nat_of_ascii underscore) with 95%nat in Heq.
  destruct (is_upper c) eqn:Hup.
  - rewrite to_lower_upper in Heq by done.
    apply is_upper_range in Hup. lia.
  - rewrite to_lower_not_upper in Heq by done.
    unfold is_letter in Hc. rewrite Hup, orb_false_l in Hc.
    apply andb_true_iff in Hc as [H1 H2].
    apply Nat.leb_le in H1, H2. lia.
Qed.

Lemma to_lower_letter_not_s_end (c : Ascii.ascii) (rest : string) :
  String (to_lower c) (lower rest +:+ "s") ≠ "s".
Proof. intros [= _ Hrest]. by destruct (lower rest). Qed.

(** The lowered, underscored remainder of a name, with the final "s",
    tells the remainder. *)
Lemma underscore_capitals_inj (s1 : string) :
  ∀ s2,
    all_letters s1 = true → all_letters s2 = true →
    lower (underscore_capitals s1) +:+ "s"
    = lower (underscore_capitals s2) +:+ "s" →
    s1 = s2.
Proof.
  assert (Hunderscore : to_lower underscore = underscore) by reflexivity.
  assert (Hs : ∀ c rest,
            is_letter c = true →
            lower (underscore_capitals (String c rest)) +:+ "s" ≠ "s").
  { intros c rest Hc. simpl. destruct (is_upper c); simpl.
    - rewrite Hunderscore. intros Heq. by injection Heq.
    - apply to_lower_letter_not_s_end. }
  induction s1 as [|c1 s1 IH]; intros [|c2 s2] Hl1 Hl2 Heq; [done| | |].
  - simpl in Hl2. apply andb_true_iff in Hl2 as [Hc2 _].
    symmetry in Heq. by apply Hs in Heq.
  - simpl in Hl1. apply andb_true_iff in Hl1 as [Hc1 _]. by apply Hs in Heq.
  - simpl in Hl1, Hl2.
    apply andb_true_iff in Hl1 as [Hc1 Hl1].
    apply andb_true_iff in Hl2 as [Hc2 Hl2].
    simpl in Heq.
    destruct (is_upper c1) eqn:H1, (is_upper c2) eqn:H2; simpl in Heq.
    + injection Heq as Hc Hrest.
      f_equal; [apply to_lower_inj; congruence | by apply IH].
    + injection Heq as Hc _. rewrite Hunderscore in Hc.
      symmetry in Hc. by apply to_lower_letter_not_underscore in Hc.
    + injection Heq as Hc _. rewrite Hunderscore in Hc.
      by apply to_lower_letter_not_underscore in Hc.
    + injection Heq as Hc Hrest.
      f_equal; [apply to_lower_inj; congruence | by apply IH].
Qed.

(** Two classes named by a capital followed by letters get different
    table names, unless they have the same name. *)
Theorem tablename_injective (name1 name2 : string) :
  is_class_name name1 = true → is_class_name name2 = true →
  __tablename__ name1 = __tablename__ name2 →
  name1 = name2.
Proof.
  destruct name1 as [|c1 s1], name2 as [|c2 s2]; try done.
  simpl. intros [Hc1 Hl1]%andb_true_iff [Hc2 Hl2]%andb_true_iff.
  unfold __tablename__. simpl. intros [= Hc Hrest].
  f_equal; [apply to_lower_inj; congruence|].
  by apply underscore_capitals_inj.
Qed.

Lemma tablename_injective_witness :
  __tablename__ "ChatUser" ≠ __tablename__ "ChatResource".
Proof.
  intros Heq.
  apply (tablename_injective "ChatUser" "ChatResource") in Heq;
    [discriminate Heq | reflexivity | reflexivity].
Defined.

(** The sixteen mapped classes are named as the theorem asks, and their
    tables are these. *)
Example model_tables :
  forallb is_class_name model_classes = true
  ∧ __tablename__ <$> model_classes
    = ["users"; "organizations"; "organization_users"; "collections";
       "collection_resources"; "resources"; "files"; "meetings";
       "meeting_participants"; "meeting_recordings"; "websites"; "chats";
       "chat_collections"; "chat_users"; "chat_resources"; "chat_messages"].
Proof. split; reflexivity. Qed.

(** ** models.py: the text of an identity *)

Lemma hex_digit_single (d : Z) : ∃ c, hex_digit d = String c "".
Proof.
  unfold hex_digit. destruct d as [|p|p]; [eauto| |eauto].
  do 4 (try destruct p as [p|p|]); eauto.
Qed.

Lemma hex_digit_inj (a b : Z) :
  0 ≤ a < 16 → 0 ≤ b < 16 → hex_digit a = hex_digit b → a = b.
Proof.
  intros Ha Hb Heq.
  assert (∀ x, 0 ≤ x < 16 →
            x = 0 ∨ x = 1 ∨ x = 2 ∨ x = 3 ∨ x = 4 ∨ x = 5 ∨ x = 6 ∨ x = 7
            ∨ x = 8 ∨ x = 9 ∨ x = 10 ∨ x = 11 ∨ x = 12 ∨ x = 13 ∨ x = 14
            ∨ x = 15) as Hcases by (intros; lia).
  pose proof (Hcases a Ha) as HA. pose proof (Hcases b Hb) as HB.
  clear Ha Hb Hcases.
  repeat (destruct HA as [->|HA]); try subst a;
    repeat (destruct HB as [->|HB]); try subst b;
    first [reflexivity | discriminate Heq].
Qed.

Lemma length_append (s1 s2 : string) :
  String.length (s1 +:+ s2) = (String.length s1 + String.length s2)%nat.
Proof. induction s1 as [|c s1 IH]; [done|]. simpl. by rewrite IH. Qed.

Lemma length_hex_digits (n : nat) (z : Z) :
  String.length (hex_digits n z) = n.
Proof.
  induction n as [|n IH]; [done|].
  change (hex_digits (S n) z)
    with (hex_digit (Z.land (Z.shiftr z (4 * Z.of_nat n)) 15)
          +:+ hex_digits n z).
  rewrite length_append, IH.
  by destruct (hex_digit_single (Z.land (Z.shiftr z (4 * Z.of_nat n)) 15))
    as [c ->].
Qed.

(** Equal digits, whatever follows them, are the digits of equal
    nibbles. *)
Lemma hex_digits_app_inj (n : nat) (z1 z2 : Z) (r1 r2 : string) :
  hex_digits n z1 +:+ r1 = hex_digits n z2 +:+ r2 →
  (∀ k : nat, (k < n)%nat →
     Z.land (Z.shiftr z1 (4 * Z.of_nat k)) 15
     = Z.land (Z.shiftr z2 (4 * Z.of_nat k)) 15)
  ∧ r1 = r2.
Proof.
  induction n as [|n IH].
  - intros Heq. change (r1 = r2) in Heq. split; [lia | done].
  - change (hex_digits (S n) z1)
      with (hex_digit (Z.land (Z.shiftr z1 (4 * Z.of_nat n)) 15)
            +:+ hex_digits n z1).
    change (hex_digits (S n) z2)
      with (hex_digit (Z.land (Z.shiftr z2 (4 * Z.of_nat n)) 15)
            +:+ hex_digits n z2).
    destruct (hex_digit_single (Z.land (Z.shiftr z1 (4 * Z.of_nat n)) 15))
      as [c1 H1].
    destruct (hex_digit_single (Z.land (Z.shiftr z2 (4 * Z.of_nat n)) 15))
      as [c2 H2].
    rewrite H1, H2. intros Heq.
    change (String c1 (hex_digits n z1 +:+ r1)
            = String c2 (hex_digits n z2 +:+ r2)) in Heq.
    injection Heq as Hc Hrest.
    apply IH in Hrest as [Hlow Hrest]. split; [|done].
    intros k Hk. destruct (decide (k = n)) as [->|Hne]; [|apply Hlow; lia].
    apply hex_digit_inj.
    + rewrite (Z.land_ones _ 4) by lia. apply Z.mod_pos_bound. lia.
    + rewrite (Z.land_ones _ 4) by lia. apply Z.mod_pos_bound. lia.
    + by rewrite H1, H2, Hc.
Qed.

(** The nibbles of a value shifted by [s] give its bits from [s] on. *)
Lemma nibbles_bits (z1 z2 s : Z) (n : nat) :
  0 ≤ s →
  (∀ k : nat, (k < n)%nat →
     Z.land (Z.shiftr (Z.shiftr z1 s) (4 * Z.of_nat k)) 15
     = Z.land (Z.shiftr (Z.shiftr z2 s) (4 * Z.of_nat k)) 15) →
  ∀ i, s ≤ i < s + 4 * Z.of_nat n → Z.testbit z1 i = Z.testbit z2 i.
Proof.
  intros Hs Hnib i Hi.
  pose (k := Z.to_nat ((i - s) / 4)). pose (j := (i - s) mod 4).
  assert (0 ≤ j < 4) as Hj by (apply Z.mod_pos_bound; lia).
  assert (0 ≤ (i - s) / 4 < Z.of_nat n) as Hq.
  { split; [apply Z.div_pos; lia|]. apply Z.div_lt_upper_bound; lia. }
  assert (i = s + (4 * Z.of_nat k + j)) as Hsplit.
  { unfold k, j. rewrite Z2Nat.id by lia.
    pose proof (Z.div_mod (i - s) 4). lia. }
  assert (k < n)%nat as Hk by (unfold k; lia).
  specialize (Hnib k Hk). apply (f_equal (λ x, Z.testbit x j)) in Hnib.
  simpl in Hnib. rewrite !Z.land_spec, !Z.shiftr_spec in Hnib by lia.
  assert (Z.testbit 15 j = true) as H15.
  { assert (j = 0 ∨ j = 1 ∨ j = 2 ∨ j = 3) as [->|[->|[->| ->]]] by lia; done. }
  rewrite H15, !andb_true_r in Hnib.
  rewrite Hsplit.
  replace (s + (4 * Z.of_nat k + j)) with (j + 4 * Z.of_nat k + s) by lia.
  exact Hnib.
Qed.

Lemma append_empty_r (s : string) : s +:+ "" = s.
Proof.
  induction s as [|c s IH]; [done|].
  change (String c (s +:+ "") = String c s). by rewrite IH.
Qed.

Lemma dash_inj (s1 s2 : string) : "-" +:+ s1 = "-" +:+ s2 → s1 = s2.
Proof. intros Heq. by injection Heq. Qed.

Lemma str_uuid_inj (u v : UUID) :
  0 ≤ u < 2 ^ 128 → 0 ≤ v < 2 ^ 128 → str_uuid u = str_uuid v → u = v.
Proof.
  intros Hu Hv. unfold str_uuid. intros Heq.
  apply hex_digits_app_inj in Heq as [Ha Heq].
  apply dash_inj in Heq.
  apply hex_digits_app_inj in Heq as [Hb Heq].
  apply dash_inj in Heq.
  apply hex_digits_app_inj in Heq as [Hc Heq].
  apply dash_inj in Heq.
  apply hex_digits_app_inj in Heq as [Hd Heq].
  apply dash_inj in Heq.
  rewrite <-(append_empty_r (hex_digits 12 u)),
    <-(append_empty_r (hex_digits 12 v)) in Heq.
  apply hex_digits_app_inj in Heq as [He _].
  rewrite <-(Z.shiftr_0_r u), <-(Z.shiftr_0_r v) in He.
  apply Z.bits_inj'. intros i Hi.
  destruct (decide (i < 48)) as [?|?];
    [apply (nibbles_bits u v 0 12); [lia | exact He | lia]|].
  destruct (decide (i < 64)) as [?|?];
    [apply (nibbles_bits u v 48 4); [lia | exact Hd | lia]|].
  destruct (decide (i < 80)) as [?|?];
    [apply (nibbles_bits u v 64 4); [lia | exact Hc | lia]|].
  destruct (decide (i < 96)) as [?|?];
    [apply (nibbles_bits u v 80 4); [lia | exact Hb | lia]|].
  destruct (decide (i < 128)) as [?|?];
    [apply (nibbles_bits u v 96 8); [lia | exact Ha | lia]|].
  rewrite <-(Z.mod_small u (2 ^ 128)), <-(Z.mod_small v (2 ^ 128)) by lia.
  by rewrite !Z.mod_pow2_bits_high by lia.
Qed.

(** [process_bind_param] sends [None] for [None]; for an identity it
    sends a text of 36 characters, the width of the column, and two
    128-bit identities that are sent as the same text are the same
    identity. *)
Theorem process_bind_param_faithful (u v : UUID) :
  0 ≤ u < 2 ^ 128 → 0 ≤ v < 2 ^ 128 →
  process_bind_param None = None
  ∧ (∃ text,
       process_bind_param (Some u) = Some text
       ∧ String.length text = 36%nat)
  ∧ (process_bind_param (Some u) = process_bind_param (Some v) → u = v).
Proof.
  intros Hu Hv. split; [done|]. split.
  - eexists. split; [done|]. unfold str_uuid.
    by rewrite !length_append, !length_hex_digits.
  - intros [= Heq]. by apply str_uuid_inj.
Qed.

Lemma process_bind_param_faithful_witness :
  process_bind_param (Some 0x123e4567e89b12d3a456426614174000)
  = Some "123e4567-e89b-12d3-a456-426614174000"
  ∧ process_bind_param (Some 0x123e4567e89b12d3a456426614174000)
    ≠ process_bind_param (Some 0x123e4567e89b12d3a456426614174001).
Proof.
  split; [reflexivity|].
  intros Heq.
  apply (process_bind_param_faithful 0x123e4567e89b12d3a456426614174000
           0x123e4567e89b12d3a456426614174001) in Heq;
    [discriminate Heq | lia | lia].
Defined.
